(** * Terraform plan analysis script: shallow embedding and properties

    Embedding of [scripts/analyze-terraform-plan.py].  Python [str] values are
    sequences of Unicode code points, so [len], slicing, [replace] and the
    other string methods are modelled on [list N].  Everything the script
    obtains from outside (environment variables, child processes, the HTTP
    service, the file system, the interpreter's rendering of objects) is
    read from a [World]; every effect it has is recorded in a trace of
    events. *)

From Stdlib Require Import ZArith NArith List String Ascii Bool Lia DecimalString.
From Stdlib Require Import Floats.PrimFloat.
From stdpp Require Import base list gmap.
Import ListNotations.

#[local] Set Warnings "-register-all".
#[local] Open Scope Z_scope.

(** ** Python strings *)

Module PyStr.

(** A [str] is its sequence of code points. *)
Abbreviation pystr := (list N).

(** An ASCII literal of the source. *)
Definition lit (s : String.string) : pystr :=
  map N_of_ascii (list_ascii_of_string s).

(** ["\n"] *)
Definition nl : pystr := [10%N].

(** [len(s)] *)
Definition len (s : pystr) : Z := Z.of_nat (length s).

(** [s[:k]]: a negative bound counts from the end, and bounds outside the
    string are clipped. *)
Definition slice_to (s : pystr) (k : Z) : pystr :=
  if 0 <=? k then take (Z.to_nat k) s
  else take (Z.to_nat (len s + k)) s.

(** [s.startswith(p)] *)
Fixpoint startswith (s p : pystr) {struct p} : bool :=
  match p, s with
  | [], _ => true
  | _ :: _, [] => false
  | c :: p', d :: s' => (c =? d)%N && startswith s' p'
  end.

(** [s.endswith(p)] *)
Definition endswith (s p : pystr) : bool :=
  startswith (rev s) (rev p).

(** [sub in s] *)
Fixpoint contains (s sub : pystr) : bool :=
  startswith s sub ||
  match s with
  | [] => false
  | _ :: s' => contains s' sub
  end.

Definition mem_char (c : N) (chars : pystr) : bool :=
  existsb (N.eqb c) chars.

(** [s.lstrip(chars)] and [s.rstrip(chars)] *)
Fixpoint lstrip_chars (chars s : pystr) : pystr :=
  match s with
  | [] => []
  | c :: s' => if mem_char c chars then lstrip_chars chars s' else s
  end.

Definition rstrip_chars (chars s : pystr) : pystr :=
  rev (lstrip_chars chars (rev s)).

(** The characters [str.isspace] accepts, which [strip()] removes. *)
Definition isspace (c : N) : bool :=
  ((9 <=? c) && (c <=? 13) || (28 <=? c) && (c <=? 32)
   || (c =? 133) || (c =? 160) || (c =? 5760)
   || (8192 <=? c) && (c <=? 8202)
   || (c =? 8232) || (c =? 8233) || (c =? 8239) || (c =? 8287)
   || (c =? 12288))%N.

Fixpoint lstrip (s : pystr) : pystr :=
  match s with
  | [] => []
  | c :: s' => if isspace c then lstrip s' else s
  end.

(** [s.strip()] *)
Definition strip (s : pystr) : pystr :=
  rev (lstrip (rev (lstrip s))).

(** [s.replace(old, new)]: every occurrence of [old], found from left to
    right without overlap, becomes [new].  [skip] counts the characters of
    a matched occurrence still to be passed over. *)
Fixpoint replace_from (old new : pystr) (skip : nat) (s : pystr) : pystr :=
  match s with
  | [] => []
  | c :: s' =>
      match skip with
      | S k => replace_from old new k s'
      | O =>
          if startswith s old
          then new ++ replace_from old new (length old - 1) s'
          else c :: replace_from old new 0 s'
      end
  end.

Definition replace (s old new : pystr) : pystr :=
  match old with
  | [] => new ++ flat_map (fun c => c :: new) s
  | _ :: _ => replace_from old new 0 s
  end.

(** Lower case of an ASCII code point. *)
Definition ascii_lower (c : N) : N :=
  if ((65 <=? c) && (c <=? 90))%N then (c + 32)%N else c.

(** [s.lower()].  ASCII letters are mapped as above.  For a code point
    outside ASCII the Unicode tables decide, and the answer can depend on
    the neighbours (final sigma) and can be several code points long:
    [tbl before c after] is the lower case of [c] standing between
    [before] and [after]. *)
Fixpoint lower_from (tbl : pystr -> N -> pystr -> pystr)
    (before s : pystr) : pystr :=
  match s with
  | [] => []
  | c :: s' =>
      (if (c <? 128)%N then [ascii_lower c] else tbl before c s')
        ++ lower_from tbl (before ++ [c]) s'
  end.

Definition lower (tbl : pystr -> N -> pystr -> pystr) (s : pystr) : pystr :=
  lower_from tbl [] s.

(** [str(n)] for an [int]. *)
Definition str_of_int (n : Z) : pystr :=
  lit (NilZero.string_of_int (Z.to_int n)).

(** [sep.join(parts)] *)
Fixpoint join (sep : pystr) (parts : list pystr) : pystr :=
  match parts with
  | [] => []
  | [p] => p
  | p :: rest => p ++ sep ++ join sep rest
  end.

End PyStr.
Import PyStr.

(** ** Python values, exceptions and the outside world *)

(** The values [json.loads] builds, which is what [response.json()] hands
    back: the script's [Dict[str, Any]]. *)
Inductive pyval : Type :=
| PNone
| PBool (b : bool)
| PInt (z : Z)
| PFloat (f : PrimFloat.float)
| PStr (s : pystr)
| PList (l : list pyval)
| PDict (d : gmap pystr pyval).

(** What [.json()] raises for a body that is not JSON: since requests 2.27
    its own [JSONDecodeError], a [RequestException]; before that the
    decoder's error, a plain [ValueError]. *)
Inductive json_error : Type :=
| RequestsJSONDecodeError
| DecoderValueError.

(** What [requests] gives for a completed exchange: the status code, the
    body, and what [.json()] makes of the body. *)
Record Response : Type := mkResponse {
  status_code : Z;
  text : pystr;
  json_body : pyval + json_error
}.

(** The subclasses of [requests.exceptions.RequestException] that can reach
    the script. *)
Inductive request_error : Type :=
| ConnectionError
| Timeout
| HTTPError
| JSONDecodeError
| OtherRequestError.

(** Exceptions, all of them subclasses of [Exception].  Asynchronous
    [BaseException]s (a keyboard interrupt, [SystemExit]) are outside the
    model. *)
Inductive exn : Type :=
| KeyError (key : pyval)
| IndexError
| TypeError
| AttributeError
| CalledProcessError (returncode : Z) (cmd : list pystr) (output stderr : pystr)
| RequestException (kind : request_error) (response : option Response)
| ValueError
| OSError (errno : Z)
| UnicodeEncodeError
| OtherException (name : pystr).

Inductive result (A : Type) : Type :=
| Returned (a : A)
| Raised (e : exn).
Arguments Returned {A} a.
Arguments Raised {A} e.

(** The request [requests.post(url, headers=..., json=..., timeout=...)]
    sends. *)
Record Message : Type := mkMessage {
  role : pystr;
  content : pystr
}.

Record Payload : Type := mkPayload {
  messages : list Message;
  max_tokens : Z;
  (** the literal [0.1], kept as the fraction it denotes *)
  temperature : Z * Z
}.

Record Request : Type := mkRequest {
  url : pystr;
  headers : list (pystr * pystr);
  json : Payload;
  timeout : Z
}.

(** How a child process ends: it exits, or it cannot be run at all. *)
Inductive proc_outcome : Type :=
| Exited (returncode : Z) (stdout stderr : pystr)
| NotRun (e : exn).

Record CompletedProcess : Type := mkCompleted {
  cp_returncode : Z;
  cp_stdout : pystr;
  cp_stderr : pystr
}.

(** How [requests.post] ends: with a response, or with an exception. *)
Inductive post_outcome : Type :=
| Responded (r : Response)
| PostFailed (e : exn).

Record World : Type := mkWorld {
  (** [os.environ] *)
  environ : gmap pystr pystr;
  (** what running a command line does *)
  run_process : list pystr -> proc_outcome;
  (** what the service does with a request *)
  http_post : Request -> post_outcome;
  (** [open(name, 'w')]: the error it raises, if any *)
  open_error : pystr -> option exn;
  (** [f.write(data)] on the file [name]: the error it raises, if any *)
  write_error : pystr -> pystr -> option exn;
  (** [print(line)]: the error it raises, if any, as [UnicodeEncodeError]
      for a line that standard output cannot encode; it is taken to
      depend on the line only *)
  print_error : pystr -> option exn;
  (** [str(e)] of an exception *)
  str_of_exn : exn -> pystr;
  (** [format(v)] of a value that is not a [str] *)
  str_of_value : pyval -> pystr;
  (** the Unicode lower-case tables, see [PyStr.lower_from] *)
  unicode_lower : pystr -> N -> pystr -> pystr
}.

(** The visible effects, in the order they happen. *)
Inductive event : Type :=
| EvPrint (line : pystr)
| EvRun (argv : list pystr)
| EvPost (req : Request)
| EvOpen (name : pystr)
| EvWrite (name data : pystr).

(** ** The effect monad: read the world, log events, return or raise *)

Module Eff.

Definition M (A : Type) : Type := World -> list event * result A.

Definition ret {A} (a : A) : M A := fun _ => ([], Returned a).

Definition raise {A} (e : exn) : M A := fun _ => ([], Raised e).

(** The events [t] happened before those of the run [p]. *)
Definition after {A} (t : list event) (p : list event * result A)
    : list event * result A :=
  (t ++ fst p, snd p).

Definition bind {A B} (m : M A) (k : A -> M B) : M B :=
  fun w =>
    match m w with
    | (t, Returned a) => after t (k a w)
    | (t, Raised e) => (t, Raised e)
    end.

(** [try: m  except <class> as e: handler e], where [catches] tells the
    exceptions of the class. *)
Definition try_except {A} (m : M A) (catches : exn -> bool)
    (handler : exn -> M A) : M A :=
  fun w =>
    match m w with
    | (t, Returned a) => (t, Returned a)
    | (t, Raised e) =>
        if catches e then after t (handler e w) else (t, Raised e)
    end.

Definition lift {A} (r : result A) : M A := fun _ => ([], r).

Definition ask : M World := fun w => ([], Returned w).

Definition emit (e : event) : M unit := fun _ => ([e], Returned tt).

(** [print(line)]: the line goes to standard output, or the call raises
    and nothing is printed. *)
Definition print (line : pystr) : M unit :=
  fun w =>
    match print_error w line with
    | Some e => ([], Raised e)
    | None => ([EvPrint line], Returned tt)
    end.

(** [if c: body] *)
Definition when (c : bool) (body : M unit) : M unit :=
  if c then body else ret tt.

End Eff.
Import Eff.

Notation "'let!' x ':=' m 'in' k" := (bind m (fun x => k))
  (at level 10, x pattern, m at level 100, k at level 200).
Notation "m ;;; k" := (bind m (fun _ => k))
  (at level 100, k at level 200, right associativity).

(** The trace and the outcome of a computation. *)
Definition trace_of {A} (m : M A) (w : World) : list event := fst (m w).
Definition outcome_of {A} (m : M A) (w : World) : result A := snd (m w).

(** The lines printed, the command lines run and the requests sent. *)
Definition printed (t : list event) : list pystr :=
  omap (fun e => match e with EvPrint l => Some l | _ => None end) t.

Definition commands_run (t : list event) : list (list pystr) :=
  omap (fun e => match e with EvRun a => Some a | _ => None end) t.

Definition requests_sent (t : list event) : list Request :=
  omap (fun e => match e with EvPost r => Some r | _ => None end) t.

(** The content of file [name] after the events of [t]: opening for
    writing empties the file, each write appends. *)
Definition file_step (name : pystr) (cur : option pystr) (e : event)
    : option pystr :=
  match e with
  | EvOpen n => if bool_decide (n = name) then Some [] else cur
  | EvWrite n data =>
      if bool_decide (n = name) then Some (default [] cur ++ data) else cur
  | _ => cur
  end.

Definition file_after (t : list event) (name : pystr) : option pystr :=
  fold_left (file_step name) t None.

(** ** Operations on Python values *)

(** [bool(v)] *)
Definition truthy (v : pyval) : bool :=
  match v with
  | PNone => false
  | PBool b => b
  | PInt z => negb (z =? 0)
  | PFloat f => negb (PrimFloat.eqb f 0%float)
  | PStr s => match s with [] => false | _ :: _ => true end
  | PList l => negb (bool_decide (length l = 0%nat))
  | PDict d => negb (bool_decide (d = ∅))
  end.

Definition is_str (key : pystr) (v : pyval) : bool :=
  match v with
  | PStr s => bool_decide (s = key)
  | _ => false
  end.

(** [key in v] for a [str] key: a key of a dict, an element of a list, a
    substring of a string; the other values are not containers. *)
Definition py_in (key : pystr) (v : pyval) : result bool :=
  match v with
  | PDict d => Returned (bool_decide (is_Some (d !! key)))
  | PList l => Returned (existsb (is_str key) l)
  | PStr s => Returned (contains s key)
  | _ => Raised TypeError
  end.

(** [v[key]] for a [str] key. *)
Definition getitem_str (v : pyval) (key : pystr) : result pyval :=
  match v with
  | PDict d =>
      match d !! key with
      | Some x => Returned x
      | None => Raised (KeyError (PStr key))
      end
  | _ => Raised TypeError
  end.

(** The position a sequence of length [n] gives to index [i], negative
    indices counting from the end. *)
Definition index_in (n : nat) (i : Z) : option nat :=
  if (0 <=? i) && (i <? Z.of_nat n) then Some (Z.to_nat i)
  else if (- Z.of_nat n <=? i) && (i <? 0) then Some (Z.to_nat (Z.of_nat n + i))
  else None.

(** [v[i]] for an [int] index.  The keys of a decoded JSON object are
    strings, so an [int] is never among them. *)
Definition getitem_int (v : pyval) (i : Z) : result pyval :=
  match v with
  | PList l =>
      match index_in (length l) i ≫= (l !!.) with
      | Some x => Returned x
      | None => Raised IndexError
      end
  | PStr s =>
      match index_in (length s) i ≫= (s !!.) with
      | Some c => Returned (PStr [c])
      | None => Raised IndexError
      end
  | PDict _ => Raised (KeyError (PInt i))
  | _ => Raised TypeError
  end.

(** [v.get(key, default)], a method of dicts only. *)
Definition py_get (v : pyval) (key : pystr) (dflt : pyval) : result pyval :=
  match v with
  | PDict d => Returned (default dflt (d !! key))
  | _ => Raised AttributeError
  end.

(** [v.lower()], a method of strings only. *)
Definition py_lower (w : World) (v : pyval) : result pystr :=
  match v with
  | PStr s => Returned (lower (unicode_lower w) s)
  | _ => Raised AttributeError
  end.

(** A replacement field [{v}] of an f-string. *)
Definition format_value (w : World) (v : pyval) : pystr :=
  match v with
  | PStr s => s
  | _ => str_of_value w v
  end.

(** [bool(s)] for a [str] *)
Definition str_truthy (s : pystr) : bool :=
  match s with
  | [] => false
  | _ :: _ => true
  end.

(** Truth value of what [os.getenv] returns: [None] and the empty string
    are false. *)
Definition env_truthy (o : option pystr) : bool :=
  match o with
  | Some (_ :: _) => true
  | _ => false
  end.

(** ** Library calls *)

(** [os.getenv(name)] and [os.getenv(name, default)] *)
Definition getenv (name : pystr) : M (option pystr) :=
  let! w := ask in ret (environ w !! name).

Definition getenv_default (name dflt : pystr) : M pystr :=
  let! w := ask in ret (default dflt (environ w !! name)).

(** [subprocess.run(argv, capture_output=True, text=True, check=check)] *)
Definition subprocess_run (argv : list pystr) (check : bool)
    : M CompletedProcess :=
  emit (EvRun argv) ;;;
  let! w := ask in
  match run_process w argv with
  | NotRun e => raise e
  | Exited rc out err =>
      if check && negb (rc =? 0)
      then raise (CalledProcessError rc argv out err)
      else ret (mkCompleted rc out err)
  end.

(** [requests.post(url, headers=headers, json=payload, timeout=timeout)] *)
Definition requests_post (req : Request) : M Response :=
  emit (EvPost req) ;;;
  let! w := ask in
  match http_post w req with
  | Responded r => ret r
  | PostFailed e => raise e
  end.

(** [response.raise_for_status()]: an [HTTPError] carrying the response
    for the client and server error codes, 400 to 599. *)
Definition raise_for_status (r : Response) : M unit :=
  if (400 <=? status_code r) && (status_code r <? 600)
  then raise (RequestException HTTPError (Some r))
  else ret tt.

(** [response.json()] *)
Definition response_json (r : Response) : M pyval :=
  match json_body r with
  | inl v => ret v
  | inr RequestsJSONDecodeError => raise (RequestException JSONDecodeError None)
  | inr DecoderValueError => raise ValueError
  end.

(** [open(name, 'w', encoding='utf-8')] and [f.write(data)] *)
Definition open_w (name : pystr) : M unit :=
  let! w := ask in
  match open_error w name with
  | Some e => raise e
  | None => emit (EvOpen name)
  end.

Definition write (name data : pystr) : M unit :=
  let! w := ask in
  match write_error w name data with
  | Some e => raise e
  | None => emit (EvWrite name data)
  end.

(** The handlers' classes. *)
Definition is_CalledProcessError (e : exn) : bool :=
  match e with CalledProcessError _ _ _ _ => true | _ => false end.

Definition is_RequestException (e : exn) : bool :=
  match e with RequestException _ _ => true | _ => false end.

Definition is_Exception (e : exn) : bool := true.

(** ** The script *)

(** *** [get_terraform_plan_text] *)

Definition terraform_show : list pystr :=
  [lit "terraform"; lit "show"; lit "-no-color"; lit "tfplan"].

Definition stderr_of (e : exn) : pystr :=
  match e with
  | CalledProcessError _ _ _ err => err
  | _ => []
  end.

Definition get_terraform_plan_text : M pystr :=
  try_except
    (let! result := subprocess_run terraform_show true in
     ret (cp_stdout result))
    is_CalledProcessError
    (fun e =>
       let! w := ask in
       print (lit "Error generating plan text: " ++ str_of_exn w e) ;;;
       print (lit "stderr: " ++ stderr_of e) ;;;
       ret []).

(** *** [analyze_plan_with_azure_openai] *)

Definition system_prompt : pystr :=
  join nl [
    lit "You are a Terraform infrastructure expert and security analyst. ";
    lit "Analyze the provided Terraform plan and provide insights on:";
    [];
    lit "1. SECURITY ANALYSIS:";
    lit "   - Security vulnerabilities or misconfigurations";
    lit "   - Network security recommendations";
    lit "   - Access control issues";
    lit "   - Password/secrets management concerns";
    [];
    lit "2. COST OPTIMIZATION:";
    lit "   - Resource sizing recommendations";
    lit "   - Cost-saving opportunities";
    lit "   - Over-provisioned resources";
    [];
    lit "3. BEST PRACTICES:";
    lit "   - Terraform best practices violations";
    lit "   - Azure-specific recommendations";
    lit "   - Resource naming and tagging";
    [];
    lit "4. RISK ASSESSMENT:";
    lit "   - High-risk changes";
    lit "   - Potential downtime or service disruption";
    lit "   - Dependencies and impact analysis";
    [];
    lit "5. RECOMMENDATIONS:";
    lit "   - Specific actionable improvements";
    lit "   - Alternative approaches";
    lit "   - Future considerations";
    [];
    lit "Format your response in clear sections with bullet points. Be concise but thorough.";
    lit "Focus on actionable insights that would help in a DevOps pipeline review. Keep response under 3500 characters for file output. Use plain text format only - no markdown formatting."
  ].

Definition user_prompt_head : pystr :=
  lit "Please analyze this Terraform plan for Azure infrastructure deployment:"
    ++ nl ++ nl ++ lit "```" ++ nl.

Definition user_prompt_tail : pystr :=
  nl ++ lit "```" ++ nl ++ nl
    ++ lit "Provide your analysis following the structure requested in the system prompt.".

Definition user_prompt (plan_text : pystr) : pystr :=
  user_prompt_head ++ plan_text ++ user_prompt_tail.

Definition request_url : pystr :=
  lit "https://tf-open-ai.openai.azure.com/openai/deployments/gpt-4/chat/completions?api-version=2025-01-01-preview".

Definition build_request (plan_text api_key : pystr) : Request :=
  {| url := request_url;
     headers := [(lit "api-key", api_key);
                 (lit "Content-Type", lit "application/json")];
     json := {| messages := [mkMessage (lit "system") system_prompt;
                             mkMessage (lit "user") (user_prompt plan_text)];
                max_tokens := 1500;
                temperature := (1, 10) |};
     timeout := 60 |}.

Definition analyze_plan_with_azure_openai
    (plan_text api_key endpoint deployment_name api_version : pystr)
    : M pyval :=
  let req := build_request plan_text api_key in
  try_except
    (let! response := requests_post req in
     raise_for_status response ;;;
     response_json response)
    is_RequestException
    (fun e =>
       let! w := ask in
       print (lit "Error calling Azure OpenAI API: " ++ str_of_exn w e) ;;;
       match e with
       | RequestException _ (Some r) =>
           print (lit "Response status: " ++ str_of_int (status_code r)) ;;;
           print (lit "Response text: " ++ text r)
       | _ => ret tt
       end ;;;
       ret (PDict ∅)).

(** *** [format_analysis_output] *)

Definition failure_marker : pystr :=
  [8218; 249; 229]%N ++ lit " Failed to get analysis from Azure OpenAI".

(** The two literal parts of the f-string around [{analysis_text}]. *)
Definition formatted_head : pystr :=
  nl ++ lit "##[section]" ++ [63743; 252; 167; 241]%N
    ++ lit " AI-Powered Terraform Plan Analysis" ++ nl ++ nl.

Definition formatted_tail : pystr :=
  nl ++ nl ++ lit "---" ++ nl
    ++ [63743; 252; 237; 176]%N
    ++ lit " Analysis completed using Azure OpenAI Service" ++ nl
    ++ [8218; 246; 8224; 212; 8719; 232]%N
    ++ lit "  Please review recommendations carefully before deployment" ++ nl.

Definition format_analysis_output (analysis_response : pyval) : M pystr :=
  let! missing :=
    (if negb (truthy analysis_response) then ret true
     else let! present := lift (py_in (lit "choices") analysis_response) in
          ret (negb present)) in
  if missing : bool then ret failure_marker
  else
    let! choices := lift (getitem_str analysis_response (lit "choices")) in
    let! first := lift (getitem_int choices 0) in
    let! message := lift (getitem_str first (lit "message")) in
    let! analysis_text := lift (getitem_str message (lit "content")) in
    let! w := ask in
    ret (formatted_head ++ format_value w analysis_text ++ formatted_tail).

(** *** [save_analysis_to_file] *)

(** The two patterns removed from the report. *)
Definition banner : pystr :=
  lit "##[section]" ++ [63743; 252; 167; 241]%N
    ++ lit " AI-Powered Terraform Plan Analysis" ++ nl ++ nl.

Definition footer : pystr :=
  nl ++ nl ++ lit "---" ++ nl
    ++ [63743; 252; 237; 176]%N
    ++ lit " Analysis completed using Azure OpenAI Service" ++ nl
    ++ [8218; 246; 8224; 212; 8719; 232]%N
    ++ lit "  Please review recommendations carefully before deployment" ++ nl.

Definition strip_formatting (analysis : pystr) : pystr :=
  replace (replace analysis banner []) footer [].

Definition file_header (date_stdout : pystr) : pystr :=
  lit "Terraform Plan Analysis" ++ nl ++ nl ++ lit "Generated: "
    ++ strip date_stdout ++ nl ++ nl.

Definition truncation_notice : pystr :=
  nl ++ nl ++ lit "[Content truncated to fit 4000 character limit]".

Definition fit_content (header plain_text : pystr) : pystr :=
  let max_content_length := 4000 - len header in
  if len plain_text >? max_content_length
  then slice_to plain_text (max_content_length - 50) ++ truncation_notice
  else plain_text.

Definition default_filename : pystr := lit "terraform-analysis.txt".

Definition save_analysis_to_file (analysis filename : pystr) : M unit :=
  try_except
    (let plain_text := strip_formatting analysis in
     let! date := subprocess_run [lit "date"] false in
     let header := file_header (cp_stdout date) in
     let plain_text := fit_content header plain_text in
     open_w filename ;;;
     write filename header ;;;
     write filename plain_text ;;;
     print (lit "Analysis saved to " ++ filename
              ++ lit " (max 4000 characters)"))
    is_Exception
    (fun e =>
       let! w := ask in
       print (lit "Error saving analysis to file: " ++ str_of_exn w e)).

(** *** [main] *)

(** Lines 170-173: the endpoint read from the environment is given the
    [https://] prefix unless it starts with it, and loses its trailing
    slashes. *)
Definition normalize_endpoint (endpoint : pystr) : pystr :=
  let endpoint :=
    if negb (startswith endpoint (lit "https://"))
    then lit "https://" ++ endpoint
    else endpoint in
  if endswith endpoint (lit "/")
  then rstrip_chars (lit "/") endpoint
  else endpoint.

Definition plan_truncation_marker : pystr :=
  nl ++ lit "... (truncated for analysis)".

(** Lines 186-187: the plan text handed to the analysis. *)
Definition truncate_plan (plan_text : pystr) : pystr :=
  if len plan_text >? 10000
  then slice_to plan_text 10000 ++ plan_truncation_marker
  else plan_text.

Definition critical_keywords : list pystr :=
  [lit "critical"; lit "severe"; lit "high risk";
   lit "security vulnerability"; lit "exposed"].

(** [any(keyword in analysis_text for keyword in critical_keywords)] *)
Definition any_keyword (analysis_text : pystr) : bool :=
  existsb (contains analysis_text) critical_keywords.

Definition warning_sign : pystr := [8218; 246; 8224; 212; 8719; 232]%N.

Definition msg_analyzing : pystr :=
  lit "##[section]" ++ [63743; 252; 238; 231]%N
    ++ lit " Analyzing Terraform Plan with Azure OpenAI...".

Definition msg_truncated : pystr :=
  lit "##[warning]Plan output truncated for AI analysis".

Definition msg_critical : pystr :=
  lit "##[warning]" ++ warning_sign
    ++ lit " Critical issues detected in analysis. Please review carefully!".

Definition msg_complete : pystr :=
  lit "##[section]" ++ [8218; 250; 214]%N ++ lit " AI Analysis Complete".

(** Line 205: the content the keyword scan reads. *)
Definition scanned_text (analysis_response : pyval) : M pystr :=
  let! choices :=
    lift (py_get analysis_response (lit "choices") (PList [PDict ∅])) in
  let! first := lift (getitem_int choices 0) in
  let! message := lift (py_get first (lit "message") (PDict ∅)) in
  let! text := lift (py_get message (lit "content") (PStr [])) in
  let! w := ask in
  lift (py_lower w text).

(** The value [main] returns is the exit code of the process. *)
Definition main : M Z :=
  let! api_key := getenv (lit "AZURE_OPENAI_API_KEY") in
  let! endpoint := getenv (lit "AZURE_OPENAI_ENDPOINT") in
  let! deployment_name :=
    getenv_default (lit "AZURE_OPENAI_DEPLOYMENT_NAME") (lit "gpt-4") in
  let! api_version :=
    getenv_default (lit "AZURE_OPENAI_API_VERSION")
      (lit "2024-02-15-preview") in
  if negb (env_truthy api_key) then
    print (lit "##[error]AZURE_OPENAI_API_KEY environment variable not set") ;;;
    print (lit "##[warning]Skipping AI analysis. Set AZURE_OPENAI_API_KEY variable in pipeline.") ;;;
    ret 0
  else if negb (env_truthy endpoint) then
    print (lit "##[error]AZURE_OPENAI_ENDPOINT environment variable not set") ;;;
    print (lit "##[warning]Skipping AI analysis. Set AZURE_OPENAI_ENDPOINT variable in pipeline.") ;;;
    ret 0
  else
    let api_key := default [] api_key in
    let endpoint := normalize_endpoint (default [] endpoint) in
    print msg_analyzing ;;;
    print (lit "Using endpoint: " ++ endpoint) ;;;
    print (lit "Using deployment: " ++ deployment_name) ;;;
    let! plan_text := get_terraform_plan_text in
    if negb (str_truthy plan_text) then
      print (lit "##[error]Failed to generate Terraform plan text") ;;;
      ret 1
    else
      let truncated := len plan_text >? 10000 in
      let plan_text := truncate_plan plan_text in
      when truncated (print msg_truncated) ;;;
      let! analysis_response :=
        analyze_plan_with_azure_openai
          plan_text api_key endpoint deployment_name api_version in
      if negb (truthy analysis_response) then
        print (lit "##[error]Failed to get analysis from Azure OpenAI") ;;;
        ret 1
      else
        let! formatted_analysis := format_analysis_output analysis_response in
        print formatted_analysis ;;;
        save_analysis_to_file formatted_analysis default_filename ;;;
        let! analysis_text := scanned_text analysis_response in
        when (any_keyword analysis_text) (print msg_critical) ;;;
        print msg_complete ;;;
        ret 0.

(** * Definitions for the statements *)

(** ** Parts of [main] *)

(** Lines 193-212 of [main]: what is done with the response. *)
Definition report (analysis_response : pyval) : M Z :=
  if negb (truthy analysis_response) then
    print (lit "##[error]Failed to get analysis from Azure OpenAI") ;;;
    ret 1
  else
    let! formatted_analysis := format_analysis_output analysis_response in
    print formatted_analysis ;;;
    save_analysis_to_file formatted_analysis default_filename ;;;
    let! analysis_text := scanned_text analysis_response in
    when (any_keyword analysis_text) (print msg_critical) ;;;
    print msg_complete ;;;
    ret 0.

(** Lines 179-212 of [main]: what is done once the configuration is read. *)
Definition analyse
    (api_key endpoint deployment_name api_version : pystr) : M Z :=
  let! plan_text := get_terraform_plan_text in
  if negb (str_truthy plan_text) then
    print (lit "##[error]Failed to generate Terraform plan text") ;;;
    ret 1
  else
    when (len plan_text >? 10000) (print msg_truncated) ;;;
    let! analysis_response :=
      analyze_plan_with_azure_openai
        (truncate_plan plan_text) api_key endpoint deployment_name
        api_version in
    report analysis_response.

(** The two optional variables [main] reads, with their defaults. *)
Definition deployment_of (w : World) : pystr :=
  default (lit "gpt-4") (environ w !! lit "AZURE_OPENAI_DEPLOYMENT_NAME").

Definition api_version_of (w : World) : pystr :=
  default (lit "2024-02-15-preview")
    (environ w !! lit "AZURE_OPENAI_API_VERSION").

(** An environment variable that [os.getenv] finds unset, or set to the
    empty string. *)
Definition unset_or_empty (w : World) (name : pystr) : Prop :=
  environ w !! name = None \/ environ w !! name = Some [].

(** ** Events *)

(** Every event of every run satisfies [P]. *)
Definition emits_only {A} (P : event -> Prop) (m : M A) : Prop :=
  forall w, Forall P (fst (m w)).

(** An event other than the sending of a request. *)
Definition not_post (ev : event) : Prop :=
  match ev with EvPost _ => False | _ => True end.

(** An event other than the printing of the critical-issue warning. *)
Definition not_critical (ev : event) : Prop := ev <> EvPrint msg_critical.

(** ** Responses and worlds to run the script in *)

(** The response [{"choices": [{"message": {"content": c}}]}]. *)
Definition response_with (c : pystr) : gmap pystr pyval :=
  {[ lit "choices" :=
       PList [PDict {[ lit "message" :=
                         PDict {[ lit "content" := PStr c ]} ]}] ]}.

(** The response [{"choices": []}]. *)
Definition empty_choices : gmap pystr pyval :=
  {[ lit "choices" := PList [] ]}.

(** The banner without its two closing newlines. *)
Definition banner_line : pystr := removelast (removelast banner).

Definition finding : pystr := lit "Found a SECURITY Vulnerability here.".

(** What [date] prints. *)
Definition date_line : pystr := lit "Mon Jan  1 00:00:00 UTC 2024" ++ nl.

(** The two required variables are set, every child process prints one
    line and exits with 0, the service answers 200 with an empty JSON
    object, and files can be written. *)
Definition quiet_world : World :=
  {| environ :=
       {[ lit "AZURE_OPENAI_API_KEY" := lit "secret";
          lit "AZURE_OPENAI_ENDPOINT" := lit "example.openai.azure.com" ]};
     run_process := fun _ => Exited 0 date_line [];
     http_post := fun _ => Responded (mkResponse 200 (lit "{}") (inl (PDict ∅)));
     open_error := fun _ => None;
     write_error := fun _ _ => None;
     print_error := fun _ => None;
     str_of_exn := fun _ => lit "error";
     str_of_value := fun _ => lit "value";
     unicode_lower := fun _ c _ => [c] |}.

Definition with_environ (env : gmap pystr pystr) (w : World) : World :=
  {| environ := env;
     run_process := run_process w;
     http_post := http_post w;
     open_error := open_error w;
     write_error := write_error w;
     print_error := print_error w;
     str_of_exn := str_of_exn w;
     str_of_value := str_of_value w;
     unicode_lower := unicode_lower w |}.

Definition with_plan (plan : pystr) (w : World) : World :=
  {| environ := environ w;
     run_process := fun _ => Exited 0 plan [];
     http_post := http_post w;
     open_error := open_error w;
     write_error := write_error w;
     print_error := print_error w;
     str_of_exn := str_of_exn w;
     str_of_value := str_of_value w;
     unicode_lower := unicode_lower w |}.

Definition with_response (r : Response) (w : World) : World :=
  {| environ := environ w;
     run_process := run_process w;
     http_post := fun _ => Responded r;
     open_error := open_error w;
     write_error := write_error w;
     print_error := print_error w;
     str_of_exn := str_of_exn w;
     str_of_value := str_of_value w;
     unicode_lower := unicode_lower w |}.

(** No environment variable is set. *)
Definition unconfigured_world : World := with_environ ∅ quiet_world.

(** The endpoint names the [http] scheme and ends with two slashes. *)
Definition http_endpoint_world : World :=
  with_environ
    {[ lit "AZURE_OPENAI_API_KEY" := lit "secret";
       lit "AZURE_OPENAI_ENDPOINT" := lit "http://host//" ]}
    quiet_world.

(** The plan has 10,001 characters. *)
Definition long_plan_world : World :=
  with_plan (repeat 97%N (Z.to_nat 10001)) quiet_world.

(** The service answers 503. *)
Definition unavailable_world : World :=
  with_response
    (mkResponse 503 (lit "Service Unavailable") (inr RequestsJSONDecodeError))
    quiet_world.

(** The service answers 300 and a JSON body. *)
Definition multiple_choices_world : World :=
  with_response
    (mkResponse 300 (lit "{ }") (inl (PDict empty_choices)))
    quiet_world.

(** The service reports a finding. *)
Definition finding_world : World :=
  with_response
    (mkResponse 200 (lit "{ }") (inl (PDict (response_with finding))))
    quiet_world.

(** ** Further worlds *)

Definition with_process (run : list pystr -> proc_outcome) (w : World)
    : World :=
  {| environ := environ w;
     run_process := run;
     http_post := http_post w;
     open_error := open_error w;
     write_error := write_error w;
     print_error := print_error w;
     str_of_exn := str_of_exn w;
     str_of_value := str_of_value w;
     unicode_lower := unicode_lower w |}.

Definition with_post (post : Request -> post_outcome) (w : World) : World :=
  {| environ := environ w;
     run_process := run_process w;
     http_post := post;
     open_error := open_error w;
     write_error := write_error w;
     print_error := print_error w;
     str_of_exn := str_of_exn w;
     str_of_value := str_of_value w;
     unicode_lower := unicode_lower w |}.

Definition with_open_error (e : exn) (w : World) : World :=
  {| environ := environ w;
     run_process := run_process w;
     http_post := http_post w;
     open_error := fun _ => Some e;
     write_error := write_error w;
     print_error := print_error w;
     str_of_exn := str_of_exn w;
     str_of_value := str_of_value w;
     unicode_lower := unicode_lower w |}.

(** [terraform show] exits with 1. *)
Definition failing_plan_world : World :=
  with_process (fun _ => Exited 1 [] (lit "Error: no plan")) quiet_world.

(** [terraform] is not installed. *)
Definition no_terraform_world : World :=
  with_process (fun _ => NotRun (OtherException (lit "FileNotFoundError")))
    quiet_world.

(** The report file cannot be opened. *)
Definition read_only_world : World :=
  with_open_error (OSError 13) quiet_world.

(** The service cannot be reached, and the failure is none of [requests]'
    own exceptions. *)
Definition broken_client_world : World :=
  with_post (fun _ => PostFailed (OtherException (lit "RuntimeError")))
    quiet_world.

(** The events of [main] up to and including the request, when the
    configuration is set and the plan is in hand. *)
Definition opening (w : World) (key e plan : pystr) : list event :=
  [EvPrint msg_analyzing;
   EvPrint (lit "Using endpoint: " ++ normalize_endpoint e);
   EvPrint (lit "Using deployment: " ++ deployment_of w);
   EvRun terraform_show]
    ++ (if len plan >? 10000 then [EvPrint msg_truncated] else [])
    ++ [EvPost (build_request (truncate_plan plan) key)].

(** A value that is not a string. *)
Definition not_a_string (v : pyval) : Prop :=
  match v with PStr _ => False | _ => True end.

(** The response [{"error": "quota"}]. *)
Definition error_body : gmap pystr pyval :=
  {[ lit "error" := PStr (lit "quota") ]}.

(** The response [{"choices": [{"message": {"content": null}}]}]. *)
Definition null_content : gmap pystr pyval :=
  {[ lit "choices" :=
       PList [PDict {[ lit "message" :=
                         PDict {[ lit "content" := PNone ]} ]}] ]}.

(** The response [{"choices": [{"finish_reason": "length"}]}]. *)
Definition no_message : gmap pystr pyval :=
  {[ lit "choices" :=
       PList [PDict {[ lit "finish_reason" := PStr (lit "length") ]}] ]}.

(** The service answers 200 with the given JSON object. *)
Definition answering (body : gmap pystr pyval) : World :=
  with_response (mkResponse 200 (lit "{ }") (inl (PDict body))) quiet_world.

(** The service answers 200 with the JSON value [null]. *)
Definition null_world : World :=
  with_response (mkResponse 200 (lit "null") (inl PNone)) quiet_world.

(** Every value a run returns satisfies [P]. *)
Definition returns_only {A} (P : A -> Prop) (m : M A) : Prop :=
  forall w a, snd (m w) = Returned a -> P a.

(** What the script is seen to do: print, run [terraform show] or [date],
    post to the literal URL, and open and write the report file. *)
Definition expected_event (ev : event) : Prop :=
  match ev with
  | EvPrint _ => True
  | EvRun argv => argv = terraform_show \/ argv = [lit "date"]
  | EvPost req => url req = request_url
  | EvOpen name => name = default_filename
  | EvWrite name _ => name = default_filename
  end.

(** ** Printing *)

(** [print(line)] succeeds in the world [w]. *)
Definition printable (w : World) (line : pystr) : Prop :=
  print_error w line = None.

(** The three lines [main] prints before it runs [terraform show]. *)
Definition greeting (w : World) (e : pystr) : list pystr :=
  [msg_analyzing;
   lit "Using endpoint: " ++ normalize_endpoint e;
   lit "Using deployment: " ++ deployment_of w].

(** The warning [main] prints for a long plan. *)
Definition truncation_lines (plan : pystr) : list pystr :=
  if len plan >? 10000 then [msg_truncated] else [].

(** The lines [main] prints up to the request, with the plan in hand. *)
Definition opening_lines (w : World) (e plan : pystr) : list pystr :=
  greeting w e ++ truncation_lines plan.

(** The lines [get_terraform_plan_text] prints when it catches [ex]. *)
Definition plan_error_lines (w : World) (ex : exn) : list pystr :=
  [lit "Error generating plan text: " ++ str_of_exn w ex;
   lit "stderr: " ++ stderr_of ex].

(** The lines [analyze_plan_with_azure_openai] prints when it catches
    [ex]. *)
Definition request_error_lines (w : World) (ex : exn) : list pystr :=
  (lit "Error calling Azure OpenAI API: " ++ str_of_exn w ex)
    :: match ex with
       | RequestException _ (Some r) =>
           [lit "Response status: " ++ str_of_int (status_code r);
            lit "Response text: " ++ text r]
       | _ => []
       end.

(** The line [save_analysis_to_file] prints when it catches [ex]. *)
Definition save_error_line (w : World) (ex : exn) : pystr :=
  lit "Error saving analysis to file: " ++ str_of_exn w ex.

(** The line [save_analysis_to_file] prints when the file is written. *)
Definition saved_line (filename : pystr) : pystr :=
  lit "Analysis saved to " ++ filename ++ lit " (max 4000 characters)".

(** The request fails with the exception [ex] the function catches:
    [requests.post] raises a [RequestException], or the status is one for
    which [raise_for_status] raises. *)
Definition request_fails (w : World) (req : Request) (ex : exn) : Prop :=
  (http_post w req = PostFailed ex /\ is_RequestException ex = true)
  \/ (exists r,
        http_post w req = Responded r
        /\ 400 <= status_code r < 600
        /\ ex = RequestException HTTPError (Some r)).

(** The world [w] with a standard output that fails as [f] says. *)
Definition with_print_error (f : pystr -> option exn) (w : World) : World :=
  {| environ := environ w;
     run_process := run_process w;
     http_post := http_post w;
     open_error := open_error w;
     write_error := write_error w;
     print_error := f;
     str_of_exn := str_of_exn w;
     str_of_value := str_of_value w;
     unicode_lower := unicode_lower w |}.

(** A standard output with the ASCII encoding, as in the C locale: a line
    with any other character raises [UnicodeEncodeError]. *)
Definition ascii_only (line : pystr) : option exn :=
  if forallb (fun c => (c <? 128)%N) line then None
  else Some UnicodeEncodeError.

Definition ascii_only_world : World := with_print_error ascii_only quiet_world.

(** The service answers 403 with a text that is not ASCII. *)
Definition refusing_response : Response :=
  mkResponse 403
    (lit "Acc" ++ [232%N] ++ lit "s refus" ++ [233%N])
    (inr RequestsJSONDecodeError).

Definition refusing_world : World :=
  with_print_error ascii_only (with_response refusing_response quiet_world).

(** A file name that is not ASCII. *)
Definition accented_filename : pystr :=
  lit "r" ++ [233%N] ++ lit "sum" ++ [233%N] ++ lit ".txt".

(** Standard output takes every line of ASCII text. *)
Definition ascii_stdout (w : World) : Prop :=
  forall line, forallb (fun c => (c <? 128)%N) line = true -> printable w line.

Arguments lit : simpl never.
Arguments system_prompt : simpl never.
Arguments user_prompt_head : simpl never.
Arguments user_prompt_tail : simpl never.
Arguments request_url : simpl never.
Arguments failure_marker : simpl never.
Arguments formatted_head : simpl never.
Arguments formatted_tail : simpl never.
Arguments banner : simpl never.
Arguments footer : simpl never.
Arguments truncation_notice : simpl never.
Arguments plan_truncation_marker : simpl never.
Arguments msg_analyzing : simpl never.
Arguments msg_truncated : simpl never.
Arguments msg_critical : simpl never.
Arguments msg_complete : simpl never.
Arguments default_filename : simpl never.
Arguments terraform_show : simpl never.
Arguments critical_keywords : simpl never.

(** * Properties *)

(** ** String methods *)

Section StringFacts.

Implicit Types s p t a b old new sub : pystr.

Lemma startswith_nil s : startswith s [] = true.
Proof. by destruct s. Qed.

Lemma startswith_app p t : startswith (p ++ t) p = true.
Proof.
  induction p as [|c p IH]; simpl.
  - done.
  - by rewrite N.eqb_refl.
Qed.

Lemma startswith_prefix s p :
  startswith s p = true -> exists t, s = p ++ t.
Proof.
  revert s; induction p as [|c p IH]; intros s H.
  - by exists s.
  - destruct s as [|d s]; simpl in H; [done|].
    apply andb_true_iff in H as [Hc Hs].
    apply N.eqb_eq in Hc as ->.
    destruct (IH _ Hs) as [t ->]. by exists t.
Qed.

(** A prefix that fits in the first part of a concatenation is a prefix
    of that part. *)
Lemma startswith_app_fits s t p :
  startswith (s ++ t) p = true ->
  (length p <= length s)%nat ->
  startswith s p = true.
Proof.
  revert s; induction p as [|c p IH]; intros s H Hle.
  - apply startswith_nil.
  - destruct s as [|d s]; simpl in *; [lia|].
    apply andb_true_iff in H as [Hc Hs].
    rewrite Hc; simpl. apply IH; [done|lia].
Qed.

Lemma endswith_app s p : endswith (s ++ p) p = true.
Proof. unfold endswith. rewrite rev_app_distr. apply startswith_app. Qed.

Lemma contains_cons c s sub :
  contains (c :: s) sub = startswith (c :: s) sub || contains s sub.
Proof. done. Qed.

Lemma contains_app_r a s sub :
  contains s sub = true -> contains (a ++ s) sub = true.
Proof.
  intros H. induction a as [|c a IH]; [done|].
  change ((c :: a) ++ s) with (c :: (a ++ s)).
  rewrite contains_cons, IH. apply orb_true_r.
Qed.

Lemma contains_iff s sub :
  contains s sub = true <-> exists a b, s = a ++ sub ++ b.
Proof.
  split.
  - induction s as [|c s IH].
    + change (contains [] sub) with (startswith [] sub || false).
      rewrite orb_false_r. intros H.
      apply startswith_prefix in H as [t Ht]. by exists [], t.
    + rewrite contains_cons. intros [H|H]%orb_true_iff.
      * apply startswith_prefix in H as [t Ht]. by exists [], t.
      * destruct (IH H) as (a & b & ->). by exists (c :: a), b.
  - intros (a & b & ->). apply contains_app_r.
    destruct (sub ++ b) as [|c r] eqn:E.
    + destruct sub; [done|discriminate].
    + rewrite contains_cons, <- E, startswith_app. done.
Qed.

Lemma contains_false_cons c s sub :
  contains (c :: s) sub = false ->
  startswith (c :: s) sub = false /\ contains s sub = false.
Proof. rewrite contains_cons. apply orb_false_iff. Qed.

Lemma length_removelast_S old :
  old <> [] -> S (length (removelast old)) = length old.
Proof.
  intros H. rewrite (app_removelast_last 0%N H) at 2.
  rewrite length_app. simpl. lia.
Qed.

(** *** [replace] *)

Lemma replace_from_skip old new t s :
  replace_from old new (length t) (t ++ s) = replace_from old new 0 s.
Proof. induction t as [|c t IH]; simpl; [by destruct s|done]. Qed.

(** Nothing to replace: the string comes back unchanged. *)
Lemma replace_from_absent old new s :
  old <> [] -> contains s old = false -> replace_from old new 0 s = s.
Proof.
  intros Hold. induction s as [|c s IH]; [done|].
  intros [Hs Hc]%contains_false_cons. cbn [replace_from].
  rewrite Hs. f_equal. by apply IH.
Qed.

(** The first occurrence is replaced and the scan resumes behind it. *)
Lemma replace_from_first old new a b :
  old <> [] ->
  contains (a ++ removelast old) old = false ->
  replace_from old new 0 (a ++ old ++ b)
  = a ++ new ++ replace_from old new 0 b.
Proof.
  intros Hold. induction a as [|c a IH]; intros Hno.
  - destruct old as [|o old]; [done|].
    change ([] ++ (o :: old) ++ b) with (o :: (old ++ b)).
    cbn [replace_from].
    change (o :: old ++ b) with ((o :: old) ++ b).
    rewrite startswith_app.
    replace (length (o :: old) - 1)%nat with (length old) by (simpl; lia).
    by rewrite replace_from_skip.
  - change ((c :: a) ++ removelast old) with (c :: (a ++ removelast old)) in Hno.
    apply contains_false_cons in Hno as [Hs Hc].
    change ((c :: a) ++ old ++ b) with (c :: (a ++ old ++ b)).
    cbn [replace_from].
    destruct (startswith (c :: a ++ old ++ b) old) eqn:E.
    + exfalso.
      assert (Hlen : (length old <= length (c :: a ++ removelast old))%nat).
      { pose proof (length_removelast_S old Hold).
        cbn [length]. rewrite length_app. lia. }
      assert (Happ : c :: a ++ old ++ b
                     = (c :: a ++ removelast old) ++ [List.last old 0%N] ++ b).
      { rewrite (app_removelast_last 0%N Hold) at 1.
        simpl. by rewrite <- !app_assoc. }
      rewrite Happ in E.
      apply startswith_app_fits in E; [|done].
      congruence.
    + simpl. f_equal. by apply IH.
Qed.

End StringFacts.

(** ** Running computations *)

Lemma after_nil {A} (p : list event * result A) : after [] p = p.
Proof. by destruct p. Qed.

Lemma after_pair {A} t t' (r : result A) : after t (t', r) = (t ++ t', r).
Proof. done. Qed.

Lemma after_after {A} t t' (p : list event * result A) :
  after t (after t' p) = after (t ++ t') p.
Proof. unfold after; simpl. by rewrite app_assoc. Qed.

Lemma fst_after {A} t (p : list event * result A) :
  fst (after t p) = t ++ fst p.
Proof. done. Qed.

Lemma snd_after {A} t (p : list event * result A) :
  snd (after t p) = snd p.
Proof. done. Qed.

Lemma run_ret {A B} (a : A) (k : A -> M B) w : bind (ret a) k w = k a w.
Proof. unfold bind, ret. apply after_nil. Qed.

Lemma run_raise {A B} e (k : A -> M B) w : bind (raise e) k w = ([], Raised e).
Proof. done. Qed.

Lemma run_lift_returned {A B} (a : A) (k : A -> M B) w :
  bind (lift (Returned a)) k w = k a w.
Proof. unfold bind, lift. apply after_nil. Qed.

Lemma run_lift_raised {A B} e (k : A -> M B) w :
  bind (lift (Raised e)) k w = ([], Raised e).
Proof. done. Qed.

Lemma run_ask {B} (k : World -> M B) w : bind ask k w = k w w.
Proof. unfold bind, ask. apply after_nil. Qed.

Lemma run_emit {B} ev (k : unit -> M B) w :
  bind (emit ev) k w = after [ev] (k tt w).
Proof. done. Qed.

Lemma run_print {B} line (k : unit -> M B) w :
  printable w line ->
  bind (print line) k w = after [EvPrint line] (k tt w).
Proof. unfold printable, bind, print. by intros ->. Qed.

Lemma run_print_failed {B} line (k : unit -> M B) w e :
  print_error w line = Some e ->
  bind (print line) k w = ([], Raised e).
Proof. unfold bind, print. by intros ->. Qed.

(** Finds the line among the ones assumed to be printable. *)
Ltac printing :=
  match goal with
  | |- printable _ _ => idtac
  end;
  first
    [ assumption
    | match goal with
      | H : forall ex, printable _ _ |- _ => apply H
      end
    | match goal with
      | H : Forall (printable _) _ |- _ =>
          let H' := fresh in
          pose proof H as H';
          unfold greeting, plan_error_lines, request_error_lines in H';
          apply (proj1 (List.Forall_forall _ _) H'); cbn [In app]; tauto
      end ].

Lemma run_when_true {B} (body : M unit) (k : unit -> M B) w :
  bind (when true body) k w = bind body k w.
Proof. done. Qed.

Lemma run_when_false {B} (body : M unit) (k : unit -> M B) w :
  bind (when false body) k w = k tt w.
Proof. unfold when. apply run_ret. Qed.

(** A step whose run is known. *)
Lemma run_returned {A B} (m : M A) (k : A -> M B) w t a :
  m w = (t, Returned a) -> bind m k w = after t (k a w).
Proof. unfold bind. by intros ->. Qed.

Lemma run_assoc {A B C} (m : M A) (k : A -> M B) (k' : B -> M C) w :
  bind (bind m k) k' w = bind m (fun a => bind (k a) k') w.
Proof.
  unfold bind. destruct (m w) as [t [a|e]]; [|done].
  destruct (k a w) as [t' [b|e]]; cbn [after fst snd]; [|done].
  unfold after; cbn [fst snd]. by rewrite app_assoc.
Qed.

(** The projections of a trace distribute over concatenation. *)
Lemma printed_app t t' : printed (t ++ t') = printed t ++ printed t'.
Proof. apply omap_app. Qed.

Lemma requests_sent_app t t' :
  requests_sent (t ++ t') = requests_sent t ++ requests_sent t'.
Proof. apply omap_app. Qed.

(** ** The analysis request *)

(** Unfolds the monad and the library calls of the request. *)
Ltac run_request :=
  unfold analyze_plan_with_azure_openai, try_except, requests_post,
    raise_for_status, response_json, print, emit, ask, bind, ret, raise,
    after, trace_of, outcome_of, requests_sent in *;
  cbn [fst snd app omap] in *.

(** Exactly one request is sent by the analysis, the one [build_request]
    makes, whatever the service answers. *)
Lemma analyze_sends_once w plan_text api_key endpoint deployment_name api_version :
  requests_sent
    (trace_of (analyze_plan_with_azure_openai
                 plan_text api_key endpoint deployment_name api_version) w)
  = [build_request plan_text api_key].
Proof.
  run_request.
  destruct (http_post w _) as [r|e]; cbn [fst snd app omap].
  - destruct ((400 <=? status_code r) && (status_code r <? 600));
      cbn [fst snd app omap];
      [|destruct (json_body r) as [v|[|]]; cbn [fst snd app omap]].
    all: repeat match goal with
                | |- context [print_error ?w' ?l] =>
                    destruct (print_error w' l); cbn [fst snd app omap]
                end; done.
  - destruct e as [| | | | |k [r|]| | | |]; cbn [fst snd app omap].
    all: repeat match goal with
                | |- context [print_error ?w' ?l] =>
                    destruct (print_error w' l); cbn [fst snd app omap]
                end; done.
Qed.

(** C2: two calls that differ only in endpoint, deployment name and API
    version behave alike, and each sends its one POST to the same literal
    URL: the three parameters have no influence on the target. *)
Theorem analyze_url_ignores_parameters
    w plan_text api_key endpoint1 deployment1 version1
    endpoint2 deployment2 version2 :
  analyze_plan_with_azure_openai plan_text api_key endpoint1 deployment1 version1 w
  = analyze_plan_with_azure_openai plan_text api_key endpoint2 deployment2 version2 w
  /\ map url (requests_sent
       (trace_of (analyze_plan_with_azure_openai
                    plan_text api_key endpoint1 deployment1 version1) w))
     = [request_url]
  /\ map url (requests_sent
       (trace_of (analyze_plan_with_azure_openai
                    plan_text api_key endpoint2 deployment2 version2) w))
     = [request_url].
Proof.
  split; [reflexivity|].
  by rewrite !analyze_sends_once.
Qed.

(** C7: the payload carries exactly two messages, the system one first and
    the user one second, and the user message holds the plan text as it was
    passed, between the fixed opening and closing of the prompt. *)
Theorem analyze_payload_messages
    w plan_text api_key endpoint deployment_name api_version :
  exists req system user,
    requests_sent
      (trace_of (analyze_plan_with_azure_openai
                   plan_text api_key endpoint deployment_name api_version) w)
    = [req]
    /\ messages (json req) = [system; user]
    /\ role system = lit "system"
    /\ role user = lit "user"
    /\ content user = user_prompt_head ++ plan_text ++ user_prompt_tail
    /\ contains (content user) plan_text = true.
Proof.
  exists (build_request plan_text api_key).
  exists (mkMessage (lit "system") system_prompt).
  exists (mkMessage (lit "user") (user_prompt plan_text)).
  split; [apply analyze_sends_once|].
  repeat split.
  apply contains_iff. by exists user_prompt_head, user_prompt_tail.
Qed.

(** ** Formatting the response *)

Lemma dict_with_key_nonempty (d : gmap pystr pyval) k v :
  d !! k = Some v -> bool_decide (d = ∅) = false.
Proof.
  intros H. apply bool_decide_eq_false. intros ->.
  by rewrite lookup_empty in H.
Qed.

(** A response without the [choices] key gives the failure marker. *)
Lemma getitem_int_head x l : getitem_int (PList (x :: l)) 0 = Returned x.
Proof.
  unfold getitem_int, index_in.
  replace (0 <? Z.of_nat (length (x :: l))) with true
    by (symmetry; apply Z.ltb_lt; cbn [length]; lia).
  done.
Qed.

Lemma getitem_int_empty : getitem_int (PList []) 0 = Raised IndexError.
Proof. done. Qed.

(** A response without the [choices] key gives the failure marker. *)
Lemma format_without_choices (w : World) (d : gmap pystr pyval) :
  d !! lit "choices" = None ->
  format_analysis_output (PDict d) w = ([], Returned failure_marker).
Proof.
  intros H. unfold format_analysis_output. cbn [truthy py_in].
  destruct (bool_decide (d = ∅)); cbn [negb].
  - by rewrite run_ret.
  - rewrite H, bool_decide_eq_false_2 by (by intros [? ?]).
    by rewrite run_assoc, run_lift_returned, !run_ret.
Qed.

(** A response whose [choices] is a list goes on to index it. *)
Lemma format_with_choices (w : World) (d : gmap pystr pyval) l :
  d !! lit "choices" = Some (PList l) ->
  format_analysis_output (PDict d) w
  = match l with
    | [] => ([], Raised IndexError)
    | first :: _ =>
        (let! message := lift (getitem_str first (lit "message")) in
         let! analysis_text := lift (getitem_str message (lit "content")) in
         let! w := ask in
         ret (formatted_head ++ format_value w analysis_text ++ formatted_tail)) w
    end.
Proof.
  intros H. unfold format_analysis_output. cbn [truthy py_in getitem_str].
  rewrite (dict_with_key_nonempty _ _ _ H); cbn [negb].
  rewrite H, bool_decide_eq_true_2 by eauto.
  rewrite run_assoc, run_lift_returned, !run_ret. cbn [negb].
  rewrite run_lift_returned.
  destruct l as [|first l].
  - by rewrite getitem_int_empty, run_lift_raised.
  - by rewrite getitem_int_head, run_lift_returned.
Qed.

(** C1, as the code has it: a response mapping without the [choices] key
    (the empty mapping among them) is answered with the failure marker and
    nothing is raised; a mapping whose [choices] is the empty list is not
    caught by that test, and indexing the list raises [IndexError]. *)
Theorem format_marker_only_without_choices (w : World) (d : gmap pystr pyval) :
  match d !! lit "choices" with
  | None =>
      format_analysis_output (PDict d) w = ([], Returned failure_marker)
  | Some (PList []) =>
      format_analysis_output (PDict d) w = ([], Raised IndexError)
  | Some _ => True
  end.
Proof.
  destruct (d !! lit "choices") as [[| | | | |[|x l]|]|] eqn:E; try exact I.
  - by rewrite (format_with_choices w d [] E).
  - by apply format_without_choices.
Qed.

(** C1, as stated, fails: with [choices] the empty list the function
    raises instead of returning the failure marker. *)
Lemma format_empty_choices_raises :
  outcome_of (format_analysis_output (PDict empty_choices)) quiet_world
  = Raised IndexError
  /\ outcome_of (format_analysis_output (PDict empty_choices)) quiet_world
     <> Returned failure_marker.
Proof.
  assert (H : empty_choices !! lit "choices" = Some (PList []))
    by apply lookup_singleton_eq.
  unfold outcome_of. rewrite (format_with_choices _ _ _ H). by split.
Qed.

(** ** The entry point *)

Lemma run_getenv {B} name (k : option pystr -> M B) w :
  bind (getenv name) k w = k (environ w !! name) w.
Proof. unfold getenv. by rewrite run_assoc, run_ask, run_ret. Qed.

Lemma run_getenv_default {B} name dflt (k : pystr -> M B) w :
  bind (getenv_default name dflt) k w = k (default dflt (environ w !! name)) w.
Proof. unfold getenv_default. by rewrite run_assoc, run_ask, run_ret. Qed.

Create Rewrite HintDb run.
#[local] Hint Rewrite @run_getenv @run_getenv_default @run_ret @run_raise
  @run_lift_returned @run_lift_raised @run_ask @run_emit
  @run_when_true @run_when_false @after_after @after_pair @fst_after
  @snd_after : run.

Lemma unset_or_empty_falsy w name :
  unset_or_empty w name -> env_truthy (environ w !! name) = false.
Proof. by intros [-> | ->]. Qed.

(** C8: when the credential or the endpoint variable is unset or empty,
    [main] returns 0 having printed two lines and done nothing else: no
    child process was started and no request was sent.  The two lines are
    ASCII text, which standard output is taken to accept. *)
Theorem main_skips_without_configuration (w : World) :
  ascii_stdout w ->
  unset_or_empty w (lit "AZURE_OPENAI_API_KEY")
  \/ unset_or_empty w (lit "AZURE_OPENAI_ENDPOINT") ->
  outcome_of main w = Returned 0
  /\ requests_sent (trace_of main w) = []
  /\ commands_run (trace_of main w) = []
  /\ length (printed (trace_of main w)) = 2%nat.
Proof.
  intros Hout H. unfold outcome_of, trace_of, main.
  autorewrite with run.
  destruct (env_truthy (environ w !! lit "AZURE_OPENAI_API_KEY")) eqn:Hkey;
    cbn [negb].
  - destruct H as [H|H]; apply unset_or_empty_falsy in H; [congruence|].
    rewrite H; cbn [negb].
    rewrite !run_print by (by apply Hout). by cbn.
  - rewrite !run_print by (by apply Hout). by cbn.
Qed.

Lemma main_skips_without_configuration_witness :
  ascii_stdout unconfigured_world
  /\ (unset_or_empty unconfigured_world (lit "AZURE_OPENAI_API_KEY")
      \/ unset_or_empty unconfigured_world (lit "AZURE_OPENAI_ENDPOINT"))
  /\ outcome_of main unconfigured_world = Returned 0
  /\ requests_sent (trace_of main unconfigured_world) = []
  /\ commands_run (trace_of main unconfigured_world) = []
  /\ length (printed (trace_of main unconfigured_world)) = 2%nat.
Proof.
  assert (H : unset_or_empty unconfigured_world (lit "AZURE_OPENAI_API_KEY")
              \/ unset_or_empty unconfigured_world (lit "AZURE_OPENAI_ENDPOINT")).
  { left. left. reflexivity. }
  assert (Hout : ascii_stdout unconfigured_world) by (intros line _; reflexivity).
  split; [exact Hout|]. split; [exact H|].
  exact (main_skips_without_configuration unconfigured_world Hout H).
Defined.

Lemma env_truthy_set (o : option pystr) s :
  o = Some s -> s <> [] -> env_truthy o = true.
Proof. intros -> H. by destruct s. Qed.

(** *** Endpoint normalisation *)

Lemma lstrip_slashes s :
  exists n,
    s = repeat 47%N n ++ lstrip_chars (lit "/") s
    /\ startswith (lstrip_chars (lit "/") s) (lit "/") = false.
Proof.
  change (lit "/") with [47%N].
  induction s as [|c s (n & Hs & Hr)].
  - by exists 0%nat.
  - cbn [lstrip_chars mem_char existsb]. rewrite orb_false_r.
    destruct (N.eqb_spec c 47) as [->|Hc].
    + exists (S n). split; [|done]. cbn [repeat app]. by f_equal.
    + exists 0%nat. split; [done|].
      cbn [startswith]. rewrite andb_true_r.
      apply N.eqb_neq. congruence.
Qed.

Lemma rev_repeat {X} (x : X) n : rev (repeat x n) = repeat x n.
Proof.
  induction n as [|n IH]; [done|].
  cbn [repeat rev]. rewrite IH.
  change [x] with (repeat x 1). rewrite <- repeat_app.
  by replace (n + 1)%nat with (S n) by lia.
Qed.

(** [rstrip('/')] removes the whole run of slashes at the end. *)
Lemma rstrip_slashes s :
  exists n,
    s = rstrip_chars (lit "/") s ++ repeat 47%N n
    /\ endswith (rstrip_chars (lit "/") s) (lit "/") = false.
Proof.
  destruct (lstrip_slashes (rev s)) as (n & Hs & Hr).
  exists n. unfold rstrip_chars, endswith. split.
  - rewrite <- (rev_involutive s) at 1. rewrite Hs at 1.
    by rewrite rev_app_distr, rev_repeat.
  - by rewrite rev_involutive.
Qed.

(** C3, as the code has it: with both variables set, [main] reports the
    endpoint it normalised, provided its first two lines can be printed.
    The [https://] prefix is added exactly when the value does not start
    with [https://], whatever else it starts with, and the whole run of
    trailing slashes is removed. *)
Theorem main_normalizes_endpoint (w : World) (key e : pystr) :
  environ w !! lit "AZURE_OPENAI_API_KEY" = Some key -> key <> [] ->
  environ w !! lit "AZURE_OPENAI_ENDPOINT" = Some e -> e <> [] ->
  printable w msg_analyzing ->
  printable w (lit "Using endpoint: " ++ normalize_endpoint e) ->
  let prefixed :=
    if startswith e (lit "https://") then e else lit "https://" ++ e in
  (exists rest,
     trace_of main w
     = EvPrint msg_analyzing
         :: EvPrint (lit "Using endpoint: " ++ normalize_endpoint e) :: rest)
  /\ (exists n, prefixed = normalize_endpoint e ++ repeat 47%N n)
  /\ endswith (normalize_endpoint e) (lit "/") = false.
Proof.
  intros Hkey Hkey' He He' Hp1 Hp2 prefixed. split; [|].
  - unfold trace_of, main. autorewrite with run.
    rewrite (env_truthy_set _ _ Hkey Hkey'), (env_truthy_set _ _ He He').
    cbn [negb]. rewrite He. cbn [default from_option id].
    rewrite (run_print _ _ _ Hp1), (run_print _ _ _ Hp2), !fst_after.
    eexists. reflexivity.
  - unfold normalize_endpoint.
    replace (if negb (startswith e (lit "https://"))
             then lit "https://" ++ e else e) with prefixed
      by (subst prefixed; by destruct (startswith e _)).
    destruct (endswith prefixed (lit "/")) eqn:E.
    + destruct (rstrip_slashes prefixed) as (n & Hn & Hend). eauto.
    + split; [|done]. exists 0%nat. cbn [repeat]. by rewrite app_nil_r.
Qed.

Lemma main_normalizes_endpoint_witness :
  normalize_endpoint (lit "http://host//") = lit "https://http://host"
  /\ (exists rest,
        trace_of main http_endpoint_world
        = EvPrint msg_analyzing
            :: EvPrint (lit "Using endpoint: "
                          ++ normalize_endpoint (lit "http://host//")) :: rest)
  /\ (exists n,
        lit "https://" ++ lit "http://host//"
        = normalize_endpoint (lit "http://host//") ++ repeat 47%N n)
  /\ endswith (normalize_endpoint (lit "http://host//")) (lit "/") = false.
Proof.
  split; [reflexivity|].
  apply (main_normalizes_endpoint http_endpoint_world
           (lit "secret") (lit "http://host//")).
  - reflexivity.
  - discriminate.
  - reflexivity.
  - discriminate.
  - reflexivity.
  - reflexivity.
Defined.

(** C3, as stated, fails: an endpoint that carries the [http] scheme is
    given the [https://] prefix all the same, and [main] goes on with
    [https://http://host]. *)
Lemma main_prefixes_http_endpoint :
  environ http_endpoint_world !! lit "AZURE_OPENAI_ENDPOINT"
  = Some (lit "http://host//")
  /\ startswith (lit "http://host//") (lit "http://") = true
  /\ normalize_endpoint (lit "http://host//") = lit "https://http://host"
  /\ nth_error (printed (trace_of main http_endpoint_world)) 1
     = Some (lit "Using endpoint: https://http://host").
Proof. repeat split; vm_compute; reflexivity. Qed.

(** ** What a computation can emit *)

Section EmitsOnly.

Context (P : event -> Prop).

Lemma emits_only_ret {A} (a : A) : emits_only P (ret a).
Proof. intros w. constructor. Qed.

Lemma emits_only_raise {A} e : emits_only P (@raise A e).
Proof. intros w. constructor. Qed.

Lemma emits_only_lift {A} (r : result A) : emits_only P (lift r).
Proof. intros w. constructor. Qed.

Lemma emits_only_ask : emits_only P ask.
Proof. intros w. constructor. Qed.

Lemma emits_only_emit ev : P ev -> emits_only P (emit ev).
Proof. intros H w. by repeat constructor. Qed.

Lemma emits_only_print line : P (EvPrint line) -> emits_only P (print line).
Proof.
  intros H w. unfold print.
  destruct (print_error w line); by repeat constructor.
Qed.

Lemma emits_only_bind {A B} (m : M A) (k : A -> M B) :
  emits_only P m -> (forall a, emits_only P (k a)) -> emits_only P (bind m k).
Proof.
  intros Hm Hk w. unfold bind. specialize (Hm w).
  destruct (m w) as [t [a|e]]; cbn [fst] in *; [|done].
  apply Forall_app. split; [done|apply Hk].
Qed.

Lemma emits_only_try {A} (m : M A) catches handler :
  emits_only P m -> (forall e, emits_only P (handler e)) ->
  emits_only P (try_except m catches handler).
Proof.
  intros Hm Hh w. unfold try_except. specialize (Hm w).
  destruct (m w) as [t [a|e]]; cbn [fst] in *; [done|].
  destruct (catches e); [|done].
  apply Forall_app. split; [done|apply Hh].
Qed.

Lemma emits_only_when c body :
  emits_only P body -> emits_only P (when c body).
Proof. destruct c; [done|]. intros _. apply emits_only_ret. Qed.

Lemma emits_only_if {A} (c : bool) (m1 m2 : M A) :
  emits_only P m1 -> emits_only P m2 -> emits_only P (if c then m1 else m2).
Proof. by destruct c. Qed.

Lemma emits_only_subprocess_run argv check :
  P (EvRun argv) -> emits_only P (subprocess_run argv check).
Proof.
  intros H. unfold subprocess_run.
  apply emits_only_bind; [by apply emits_only_emit|intros _].
  apply emits_only_bind; [apply emits_only_ask|intros w].
  destruct (run_process w argv) as [rc out err|e]; [|apply emits_only_raise].
  destruct (check && negb (rc =? 0));
    [apply emits_only_raise|apply emits_only_ret].
Qed.

Lemma emits_only_open_w name : P (EvOpen name) -> emits_only P (open_w name).
Proof.
  intros H. unfold open_w.
  apply emits_only_bind; [apply emits_only_ask|intros w].
  destruct (open_error w name); [apply emits_only_raise|by apply emits_only_emit].
Qed.

Lemma emits_only_write name data :
  P (EvWrite name data) -> emits_only P (write name data).
Proof.
  intros H. unfold write.
  apply emits_only_bind; [apply emits_only_ask|intros w].
  destruct (write_error w name data);
    [apply emits_only_raise|by apply emits_only_emit].
Qed.

End EmitsOnly.

(** Splits a goal [emits_only P m] along the structure of [m], leaving the
    goals [P ev] for the events [m] can emit. *)
Ltac emits_only_steps :=
  repeat first
    [ apply emits_only_ret | apply emits_only_raise | apply emits_only_lift
    | apply emits_only_ask
    | apply emits_only_print | apply emits_only_emit
    | apply emits_only_subprocess_run | apply emits_only_open_w
    | apply emits_only_write
    | apply emits_only_when | apply emits_only_if
    | apply emits_only_try; [|intros ?]
    | apply emits_only_bind; [|intros ?] ].

(** The trace of a sequence is the trace of its first part followed by the
    trace of what runs after it. *)
Lemma trace_bind {A B} (m : M A) (k : A -> M B) w :
  fst (bind m k w)
  = fst (m w) ++ match snd (m w) with
                 | Returned a => fst (k a w)
                 | Raised _ => []
                 end.
Proof.
  unfold bind. destruct (m w) as [t [a|e]]; cbn [fst snd after]; [done|].
  by rewrite app_nil_r.
Qed.

Lemma requests_sent_none t : Forall not_post t -> requests_sent t = [].
Proof.
  induction 1 as [|ev t Hev _ IH]; [done|].
  unfold requests_sent in *. cbn [omap]. by destruct ev.
Qed.

(** ** [main] with its configuration in place *)

(** With the credential and the endpoint set, [main] prints its three
    opening lines and goes on to the analysis. *)
Lemma main_greets (w : World) (key e : pystr) :
  environ w !! lit "AZURE_OPENAI_API_KEY" = Some key -> key <> [] ->
  environ w !! lit "AZURE_OPENAI_ENDPOINT" = Some e -> e <> [] ->
  main w
  = (print msg_analyzing ;;;
     print (lit "Using endpoint: " ++ normalize_endpoint e) ;;;
     print (lit "Using deployment: " ++ deployment_of w) ;;;
     analyse key (normalize_endpoint e) (deployment_of w)
       (api_version_of w)) w.
Proof.
  intros Hkey Hkey' He He'. unfold main. autorewrite with run.
  rewrite (env_truthy_set _ _ Hkey Hkey'), (env_truthy_set _ _ He He').
  cbn [negb]. rewrite Hkey, He. reflexivity.
Qed.

Lemma main_configured (w : World) (key e : pystr) :
  environ w !! lit "AZURE_OPENAI_API_KEY" = Some key -> key <> [] ->
  environ w !! lit "AZURE_OPENAI_ENDPOINT" = Some e -> e <> [] ->
  Forall (printable w) (greeting w e) ->
  main w
  = after [EvPrint msg_analyzing;
           EvPrint (lit "Using endpoint: " ++ normalize_endpoint e);
           EvPrint (lit "Using deployment: " ++ deployment_of w)]
      (analyse key (normalize_endpoint e) (deployment_of w)
         (api_version_of w) w).
Proof.
  intros Hkey Hkey' He He' Hp.
  rewrite (main_greets w key e) by done.
  rewrite !run_print by printing. by rewrite !after_after.
Qed.

Lemma subprocess_run_exited (w : World) argv check rc out err :
  run_process w argv = Exited rc out err ->
  subprocess_run argv check w
  = ([EvRun argv],
     if check && negb (rc =? 0)
     then Raised (CalledProcessError rc argv out err)
     else Returned (mkCompleted rc out err)).
Proof.
  intros H. unfold subprocess_run. rewrite run_emit, run_ask, H.
  by destruct (check && negb (rc =? 0)).
Qed.

Lemma try_except_returned {A} (m : M A) catches handler w t a :
  m w = (t, Returned a) -> try_except m catches handler w = (t, Returned a).
Proof. unfold try_except. by intros ->. Qed.

Lemma try_except_caught {A} (m : M A) catches handler w t e :
  m w = (t, Raised e) -> catches e = true ->
  try_except m catches handler w = after t (handler e w).
Proof. unfold try_except. by intros -> ->. Qed.

(** A plan that [terraform show] prints with exit code 0 is returned as it
    is. *)
Lemma plan_text_shown (w : World) plan err :
  run_process w terraform_show = Exited 0 plan err ->
  get_terraform_plan_text w = ([EvRun terraform_show], Returned plan).
Proof.
  intros H. unfold get_terraform_plan_text.
  apply try_except_returned.
  rewrite (run_returned _ _ _ _ _ (subprocess_run_exited _ _ true _ _ _ H)).
  reflexivity.
Qed.

Lemma report_no_post resp : emits_only not_post (report resp).
Proof.
  unfold report. emits_only_steps; exact I.
Qed.

(** With the plan in hand, the one request of the run is the one the
    analysis sends. *)
Lemma analyse_sends_once (w : World) key endpoint deployment version plan err :
  run_process w terraform_show = Exited 0 plan err ->
  plan <> [] ->
  Forall (printable w) (truncation_lines plan) ->
  requests_sent (fst (analyse key endpoint deployment version w))
  = [build_request (truncate_plan plan) key].
Proof.
  intros Hplan Hne Hp. unfold analyse.
  rewrite (run_returned _ _ _ _ _ (plan_text_shown _ _ _ Hplan)).
  replace (str_truthy plan) with true by (by destruct plan).
  cbn [negb]. rewrite fst_after, requests_sent_app.
  cbn [requests_sent omap app].
  unfold truncation_lines in Hp.
  pose proof (analyze_sends_once w (truncate_plan plan) key endpoint
                deployment version) as Hsend.
  unfold trace_of in Hsend.
  assert (Hrest : forall r : result pyval,
            requests_sent match r with
                          | Returned resp => fst (report resp w)
                          | Raised _ => []
                          end = []).
  { intros [resp|ex]; [|done].
    apply requests_sent_none, report_no_post. }
  destruct (len plan >? 10000).
  - rewrite run_when_true, run_print, fst_after, requests_sent_app
      by printing.
    by rewrite trace_bind, requests_sent_app, Hsend, Hrest.
  - rewrite run_when_false.
    by rewrite trace_bind, requests_sent_app, Hsend, Hrest.
Qed.

(** *** Truncation of a long plan *)

Lemma truncate_long_plan plan :
  10000 < len plan ->
  truncate_plan plan = take (Z.to_nat 10000) plan ++ plan_truncation_marker.
Proof.
  intros H. unfold truncate_plan.
  by replace (len plan >? 10000) with true by (symmetry; apply Z.gtb_lt; lia).
Qed.

(** C6: a plan of more than 10,000 characters reaches the analysis request
    as its first 10,000 characters followed by the truncation marker, that
    text standing in the user message of the only request sent, and the
    truncation warning is printed; the three opening lines and the warning
    are lines that can be printed. *)
Theorem main_truncates_long_plan (w : World) (key e plan err : pystr) :
  environ w !! lit "AZURE_OPENAI_API_KEY" = Some key -> key <> [] ->
  environ w !! lit "AZURE_OPENAI_ENDPOINT" = Some e -> e <> [] ->
  run_process w terraform_show = Exited 0 plan err ->
  10000 < len plan ->
  Forall (printable w) (greeting w e) ->
  printable w (lit "##[warning]Plan output truncated for AI analysis") ->
  let forwarded :=
    take (Z.to_nat 10000) plan ++ nl ++ lit "... (truncated for analysis)" in
  len (take (Z.to_nat 10000) plan) = 10000
  /\ requests_sent (trace_of main w) = [build_request forwarded key]
  /\ map content (messages (json (build_request forwarded key)))
     = [system_prompt; user_prompt_head ++ forwarded ++ user_prompt_tail]
  /\ In (lit "##[warning]Plan output truncated for AI analysis")
       (printed (trace_of main w)).
Proof.
  intros Hkey Hkey' He He' Hplan Hlen Hgreet Hwarn forwarded.
  assert (Hne : plan <> []) by (intros ->; unfold len in Hlen; simpl in Hlen; lia).
  assert (Hlong : (len plan >? 10000) = true) by (apply Z.gtb_lt; lia).
  change (printable w msg_truncated) in Hwarn.
  unfold trace_of. rewrite (main_configured w key e) by done.
  rewrite fst_after.
  repeat split.
  - unfold len in *. rewrite length_take. lia.
  - rewrite requests_sent_app. cbn [requests_sent omap app].
    rewrite (analyse_sends_once w _ _ _ _ plan err); [|done..|].
    + by rewrite truncate_long_plan.
    + unfold truncation_lines. rewrite Hlong. by constructor.
  - rewrite printed_app. apply in_or_app. right.
    unfold analyse.
    rewrite (run_returned _ _ _ _ _ (plan_text_shown _ _ _ Hplan)).
    replace (str_truthy plan) with true by (by destruct plan).
    rewrite Hlong.
    cbn [negb]. rewrite run_when_true, run_print, !fst_after, !printed_app
      by done.
    apply in_or_app; right. apply in_or_app; left. by left.
Qed.

Lemma main_truncates_long_plan_witness :
  10000 < len (repeat 97%N (Z.to_nat 10001))
  /\ let forwarded :=
       take (Z.to_nat 10000) (repeat 97%N (Z.to_nat 10001))
         ++ nl ++ lit "... (truncated for analysis)" in
     len (take (Z.to_nat 10000) (repeat 97%N (Z.to_nat 10001))) = 10000
     /\ requests_sent (trace_of main long_plan_world)
        = [build_request forwarded (lit "secret")]
     /\ map content (messages (json (build_request forwarded (lit "secret"))))
        = [system_prompt; user_prompt_head ++ forwarded ++ user_prompt_tail]
     /\ In (lit "##[warning]Plan output truncated for AI analysis")
          (printed (trace_of main long_plan_world)).
Proof.
  assert (Hlen : 10000 < len (repeat 97%N (Z.to_nat 10001))).
  { unfold len. rewrite repeat_length. lia. }
  split; [exact Hlen|].
  apply (main_truncates_long_plan long_plan_world (lit "secret")
           (lit "example.openai.azure.com") (repeat 97%N (Z.to_nat 10001)) []).
  - reflexivity.
  - discriminate.
  - reflexivity.
  - discriminate.
  - reflexivity.
  - exact Hlen.
  - repeat constructor.
  - reflexivity.
Defined.

(** *** Failure of the request *)

(** Printing touches neither the files nor the child processes. *)
Lemma file_after_prints lines name cur :
  fold_left (file_step name) (map EvPrint lines) cur = cur.
Proof. revert cur. by induction lines. Qed.

Lemma commands_run_prints lines : commands_run (map EvPrint lines) = [].
Proof. by induction lines. Qed.

Lemma requests_sent_prints lines : requests_sent (map EvPrint lines) = [].
Proof. by induction lines. Qed.

Lemma printed_prints lines : printed (map EvPrint lines) = lines.
Proof. induction lines as [|l lines IH]; [done|]. cbn. by f_equal. Qed.

Lemma commands_run_app t t' :
  commands_run (t ++ t') = commands_run t ++ commands_run t'.
Proof. apply omap_app. Qed.

(** The handler of the request: one to three lines, and the empty
    mapping, when the lines can be printed. *)
Lemma request_handler_returns (w : World) kind response :
  Forall (printable w)
    (request_error_lines w (RequestException kind response)) ->
  (let! w := ask in
   print (lit "Error calling Azure OpenAI API: "
            ++ str_of_exn w (RequestException kind response)) ;;;
   match RequestException kind response with
   | RequestException _ (Some r) =>
       print (lit "Response status: " ++ str_of_int (status_code r)) ;;;
       print (lit "Response text: " ++ text r)
   | _ => ret tt
   end ;;;
   ret (PDict ∅)) w
  = (map EvPrint (request_error_lines w (RequestException kind response)),
     Returned (PDict ∅)).
Proof.
  intros Hp. rewrite run_ask.
  destruct response as [r|]; unfold request_error_lines.
  - rewrite run_print, run_assoc, run_print, run_print by printing.
    reflexivity.
  - rewrite run_print, run_ret by printing. reflexivity.
Qed.

(** A request that fails raises its exception once it is sent. *)
Lemma request_raises (w : World) plan_text api_key ex :
  request_fails w (build_request plan_text api_key) ex ->
  (exists kind response, ex = RequestException kind response)
  /\ (let! response := requests_post (build_request plan_text api_key) in
      raise_for_status response ;;; response_json response) w
     = ([EvPost (build_request plan_text api_key)], Raised ex).
Proof.
  intros H.
  unfold requests_post. rewrite run_assoc, run_emit, run_assoc, run_ask.
  destruct H as [[-> Hex]|(r & -> & Hr & ->)].
  - destruct ex as [| | | | |kind response| | | |]; try discriminate Hex.
    split; [by eauto|]. by rewrite run_raise.
  - split; [by eauto|]. rewrite run_ret. unfold raise_for_status.
    replace ((400 <=? status_code r) && (status_code r <? 600)) with true
      by (symmetry; apply andb_true_iff; split;
          [apply Z.leb_le|apply Z.ltb_lt]; lia).
    by rewrite run_raise.
Qed.

(** A failed request is reported in one to three lines and answered with
    the empty mapping. *)
Lemma analyze_failed
    (w : World) plan_text api_key endpoint deployment version ex :
  request_fails w (build_request plan_text api_key) ex ->
  Forall (printable w) (request_error_lines w ex) ->
  analyze_plan_with_azure_openai plan_text api_key endpoint deployment version w
  = (EvPost (build_request plan_text api_key)
       :: map EvPrint (request_error_lines w ex),
     Returned (PDict ∅)).
Proof.
  intros H Hp. unfold analyze_plan_with_azure_openai.
  destruct (request_raises w plan_text api_key ex H)
    as [(kind & response & ->) Hraised].
  rewrite (try_except_caught _ _ _ _ _ _ Hraised eq_refl).
  by rewrite (request_handler_returns w kind response Hp).
Qed.

(** With the configuration set, the plan in hand and its opening lines
    printed, [main] goes on to report what the analysis returned. *)
Lemma main_analyses (w : World) (key e plan err : pystr) t (v : pyval) :
  environ w !! lit "AZURE_OPENAI_API_KEY" = Some key -> key <> [] ->
  environ w !! lit "AZURE_OPENAI_ENDPOINT" = Some e -> e <> [] ->
  run_process w terraform_show = Exited 0 plan err -> plan <> [] ->
  Forall (printable w) (opening_lines w e plan) ->
  analyze_plan_with_azure_openai (truncate_plan plan) key
    (normalize_endpoint e) (deployment_of w) (api_version_of w) w
  = (EvPost (build_request (truncate_plan plan) key) :: t, Returned v) ->
  main w = after (opening w key e plan ++ t) (report v w).
Proof.
  intros Hkey Hkey' He He' Hplan Hne Hp Hrun.
  apply Forall_app in Hp as [Hgreet Htrunc].
  rewrite (main_configured w key e) by done.
  unfold analyse, opening.
  rewrite (run_returned _ _ _ _ _ (plan_text_shown _ _ _ Hplan)).
  replace (str_truthy plan) with true by (by destruct plan).
  cbn [negb]. unfold truncation_lines in Htrunc.
  destruct (len plan >? 10000).
  - rewrite run_when_true, run_print, (run_returned _ _ _ _ _ Hrun)
      by printing.
    by rewrite !after_after.
  - rewrite run_when_false, (run_returned _ _ _ _ _ Hrun).
    by rewrite !after_after.
Qed.

(** A run of [main] whose request fails: the failure is reported and the
    exit code is 1. *)
Lemma main_request_failed (w : World) (key e plan err : pystr) (ex : exn) :
  environ w !! lit "AZURE_OPENAI_API_KEY" = Some key -> key <> [] ->
  environ w !! lit "AZURE_OPENAI_ENDPOINT" = Some e -> e <> [] ->
  run_process w terraform_show = Exited 0 plan err -> plan <> [] ->
  request_fails w (build_request (truncate_plan plan) key) ex ->
  Forall (printable w) (opening_lines w e plan) ->
  Forall (printable w) (request_error_lines w ex) ->
  printable w (lit "##[error]Failed to get analysis from Azure OpenAI") ->
  main w
  = (opening w key e plan
       ++ map EvPrint
            (request_error_lines w ex
               ++ [lit "##[error]Failed to get analysis from Azure OpenAI"]),
     Returned 1).
Proof.
  intros Hkey Hkey' He He' Hplan Hne Hfail Hopen Hlines Hline.
  rewrite (main_analyses w key e plan err
             (map EvPrint (request_error_lines w ex)) (PDict ∅))
    by (try done; by apply analyze_failed).
  unfold report. cbn [truthy negb].
  rewrite bool_decide_eq_true_2 by done. cbn [negb].
  rewrite run_print by done. unfold ret.
  rewrite !after_pair, map_app. cbn [map app]. by rewrite <- ?app_assoc.
Qed.

(** C5, as the code has it: when [requests.post] raises a
    [RequestException], or answers with a status from 400 to 599, the
    statuses for which [raise_for_status] raises, and the one to three
    lines that report the failure can be printed, the analysis sends its
    one request, prints those lines, returns the empty mapping and raises
    nothing; [main], when it has read its configuration and the plan and
    printed its opening lines, then prints the failure line and returns
    exit code 1. *)
Theorem analyze_request_failure_returns_empty
    (w : World) (plan_text api_key endpoint deployment_name api_version : pystr)
    (ex : exn) :
  (http_post w (build_request plan_text api_key) = PostFailed ex
   /\ is_RequestException ex = true)
  \/ (exists r,
        http_post w (build_request plan_text api_key) = Responded r
        /\ 400 <= status_code r < 600
        /\ ex = RequestException HTTPError (Some r)) ->
  Forall (printable w) (request_error_lines w ex) ->
  analyze_plan_with_azure_openai
    plan_text api_key endpoint deployment_name api_version w
  = (EvPost (build_request plan_text api_key)
       :: map EvPrint (request_error_lines w ex),
     Returned (PDict ∅))
  /\ forall e plan err,
       environ w !! lit "AZURE_OPENAI_API_KEY" = Some api_key ->
       api_key <> [] ->
       environ w !! lit "AZURE_OPENAI_ENDPOINT" = Some e -> e <> [] ->
       run_process w terraform_show = Exited 0 plan err -> plan <> [] ->
       plan_text = truncate_plan plan ->
       Forall (printable w) (opening_lines w e plan) ->
       printable w (lit "##[error]Failed to get analysis from Azure OpenAI") ->
       outcome_of main w = Returned 1
       /\ List.last (printed (trace_of main w)) []
          = lit "##[error]Failed to get analysis from Azure OpenAI".
Proof.
  intros Hfail Hlines. split; [by apply analyze_failed|].
  intros e plan err Hkey Hkey' He He' Hplan Hne -> Hopen Hline.
  unfold outcome_of, trace_of.
  rewrite (main_request_failed w api_key e plan err ex) by done.
  split; [done|]. cbn [fst].
  rewrite printed_app, printed_prints, app_assoc. apply last_last.
Qed.

Lemma analyze_request_failure_returns_empty_witness :
  analyze_plan_with_azure_openai
    (truncate_plan date_line) (lit "secret") (lit "https://host")
    (lit "gpt-4") (lit "2024-02-15-preview") unavailable_world
  = ([EvPost (build_request (truncate_plan date_line) (lit "secret"));
      EvPrint (lit "Error calling Azure OpenAI API: "
                 ++ str_of_exn unavailable_world
                      (RequestException HTTPError
                         (Some (mkResponse 503 (lit "Service Unavailable")
                                  (inr RequestsJSONDecodeError)))));
      EvPrint (lit "Response status: 503");
      EvPrint (lit "Response text: Service Unavailable")],
     Returned (PDict ∅))
  /\ outcome_of main unavailable_world = Returned 1
  /\ List.last (printed (trace_of main unavailable_world)) []
     = lit "##[error]Failed to get analysis from Azure OpenAI".
Proof.
  destruct (analyze_request_failure_returns_empty unavailable_world
              (truncate_plan date_line) (lit "secret") (lit "https://host")
              (lit "gpt-4") (lit "2024-02-15-preview")
              (RequestException HTTPError
                 (Some (mkResponse 503 (lit "Service Unavailable")
                          (inr RequestsJSONDecodeError)))))
    as [Hrun Hmain].
  - right. eexists. split; [reflexivity|]. cbn [status_code]. split; [lia|done].
  - repeat constructor.
  - split; [exact Hrun|].
    apply (Hmain (lit "example.openai.azure.com") date_line []).
    + reflexivity.
    + discriminate.
    + reflexivity.
    + discriminate.
    + reflexivity.
    + discriminate.
    + reflexivity.
    + repeat constructor.
    + reflexivity.
Defined.

(** C5, as stated, fails: a status outside 2xx that is not an error status
    for [raise_for_status], here 300, is no failure to the analysis, which
    returns the decoded body instead of the empty mapping. *)
Lemma analyze_returns_body_of_non_2xx :
  (exists r,
     http_post multiple_choices_world
       (build_request (lit "plan") (lit "secret")) = Responded r
     /\ ~ (200 <= status_code r < 300))
  /\ outcome_of (analyze_plan_with_azure_openai
                   (lit "plan") (lit "secret") (lit "https://host")
                   (lit "gpt-4") (lit "2024-02-15-preview"))
       multiple_choices_world
     = Returned (PDict empty_choices)
  /\ PDict empty_choices <> PDict ∅.
Proof.
  split; [|split].
  - eexists. split; [reflexivity|]. cbn [status_code]. lia.
  - reflexivity.
  - intros H.
    apply (f_equal (fun v => match v with
                             | PDict m => m !! lit "choices"
                             | _ => None
                             end)) in H.
    vm_compute in H. discriminate.
Qed.

(** ** Saving the report *)

(** With a [date] that runs and a file that can be written, the events of
    saving are the command, the opening of the file and the two writes,
    followed by printed lines only, whether the lines can be printed or
    not. *)
Lemma save_events (w : World) (analysis filename : pystr) rc date_out date_err :
  run_process w [lit "date"] = Exited rc date_out date_err ->
  open_error w filename = None ->
  (forall data, write_error w filename data = None) ->
  exists lines,
    trace_of (save_analysis_to_file analysis filename) w
    = [EvRun [lit "date"];
       EvOpen filename;
       EvWrite filename (file_header date_out);
       EvWrite filename
         (fit_content (file_header date_out) (strip_formatting analysis))]
        ++ map EvPrint lines.
Proof.
  intros Hdate Hopen Hwrite.
  unfold trace_of, save_analysis_to_file, try_except.
  rewrite (run_returned _ _ _ _ _
             (subprocess_run_exited _ _ false _ _ _ Hdate)).
  cbn [andb cp_stdout].
  unfold open_w, write.
  rewrite run_assoc, run_ask, Hopen, run_emit.
  rewrite run_assoc, run_ask, Hwrite, run_emit.
  rewrite run_assoc, run_ask, Hwrite, run_emit.
  rewrite !after_after. cbn [app].
  unfold print at 1.
  destruct (print_error w
              (lit "Analysis saved to " ++ filename
                 ++ lit " (max 4000 characters)")) as [e|].
  - rewrite after_pair. cbn [is_Exception app].
    rewrite run_ask. unfold print.
    destruct (print_error w (lit "Error saving analysis to file: "
                               ++ str_of_exn w e)).
    + by exists [].
    + by eexists [_].
  - by eexists [_].
Qed.

(** With a [date] that runs and a file that can be written, the file ends
    up holding the header followed by the fitted content. *)
Lemma save_writes (w : World) (analysis filename : pystr) rc date_out date_err :
  run_process w [lit "date"] = Exited rc date_out date_err ->
  open_error w filename = None ->
  (forall data, write_error w filename data = None) ->
  file_after (trace_of (save_analysis_to_file analysis filename) w) filename
  = Some (file_header date_out
            ++ fit_content (file_header date_out) (strip_formatting analysis)).
Proof.
  intros Hdate Hopen Hwrite.
  destruct (save_events w analysis filename rc date_out date_err
              Hdate Hopen Hwrite) as [lines ->].
  unfold file_after. rewrite fold_left_app, file_after_prints.
  cbn [fold_left file_step].
  rewrite !bool_decide_eq_true_2 by done. reflexivity.
Qed.

Lemma len_app s t : len (s ++ t) = len s + len t.
Proof. unfold len. rewrite length_app. lia. Qed.

Lemma len_truncation_notice : len truncation_notice = 49.
Proof. reflexivity. Qed.

(** Content that does not fit is cut to leave room for the notice. *)
Lemma fit_long_content (header plain : pystr) :
  len header <= 3950 ->
  4000 - len header < len plain ->
  fit_content header plain
  = take (Z.to_nat (3950 - len header)) plain ++ truncation_notice
  /\ len (take (Z.to_nat (3950 - len header)) plain) = 3950 - len header.
Proof.
  intros Hh Hp. unfold fit_content, slice_to.
  replace (len plain >? 4000 - len header) with true
    by (symmetry; apply Z.gtb_lt; lia).
  replace (4000 - len header - 50) with (3950 - len header) by lia.
  replace (0 <=? 3950 - len header) with true
    by (symmetry; apply Z.leb_le; lia).
  split; [done|].
  unfold len in *. rewrite length_take. lia.
Qed.



(** ** Formatting, then stripping *)

Lemma replace_nonempty s old new :
  old <> [] -> replace s old new = replace_from old new 0 s.
Proof. by destruct old. Qed.

(** The literal parts of the report are a newline followed by the banner,
    and the footer. *)
Lemma formatted_head_banner : formatted_head = nl ++ banner.
Proof. reflexivity. Qed.

Lemma formatted_tail_footer : formatted_tail = footer.
Proof. reflexivity. Qed.

(** A well-formed response is wrapped between the two literal parts. *)
Lemma format_content (w : World) (d m mm : gmap pystr pyval) rest c :
  d !! lit "choices" = Some (PList (PDict m :: rest)) ->
  m !! lit "message" = Some (PDict mm) ->
  mm !! lit "content" = Some (PStr c) ->
  format_analysis_output (PDict d) w
  = ([], Returned (formatted_head ++ c ++ formatted_tail)).
Proof.
  intros Hd Hm Hmm. rewrite (format_with_choices w d _ Hd).
  cbn [getitem_str]. rewrite Hm, run_lift_returned.
  cbn [getitem_str]. rewrite Hmm, run_lift_returned.
  by rewrite run_ask.
Qed.

(** Stripping a wrapped content gives the content back behind one
    newline, when the only banner and the only footer to be found are the
    ones that were put around it. *)
Lemma strip_wrapped c :
  contains (c ++ footer) banner = false ->
  contains (nl ++ c ++ removelast footer) footer = false ->
  strip_formatting (formatted_head ++ c ++ formatted_tail) = nl ++ c.
Proof.
  intros Hb Hf. unfold strip_formatting.
  rewrite formatted_head_banner, formatted_tail_footer.
  rewrite !replace_nonempty by discriminate.
  rewrite <- (app_assoc nl banner).
  rewrite (replace_from_first banner [] nl (c ++ footer))
    by (done || discriminate).
  rewrite (replace_from_absent banner [] (c ++ footer)) by (done || discriminate).
  cbn [app].
  replace (nl ++ c ++ footer) with ((nl ++ c) ++ footer ++ [])
    by (by rewrite app_nil_r, <- app_assoc).
  rewrite replace_from_first; [|discriminate|by rewrite <- app_assoc].
  cbn [replace_from]. by rewrite !app_nil_r.
Qed.

(** C10, as the code has it: for a response whose content is the string
    [c], stripping the formatted report gives a newline followed by [c],
    provided no banner can be found in [c] followed by the footer, and no
    footer in newline, [c], footer before the one at the end.  It is not
    enough that [c] holds neither banner nor footer.  The newline goes
    into the file, where it stands between the header and [c]. *)
Theorem strip_inverts_format
    (w : World) (d m mm : gmap pystr pyval) (rest : list pyval)
    (c filename : pystr) rc date_out date_err :
  d !! lit "choices" = Some (PList (PDict m :: rest)) ->
  m !! lit "message" = Some (PDict mm) ->
  mm !! lit "content" = Some (PStr c) ->
  contains (c ++ footer) banner = false ->
  contains (nl ++ c ++ removelast footer) footer = false ->
  run_process w [lit "date"] = Exited rc date_out date_err ->
  open_error w filename = None ->
  (forall data, write_error w filename data = None) ->
  exists formatted,
    format_analysis_output (PDict d) w = ([], Returned formatted)
    /\ strip_formatting formatted = nl ++ c
    /\ file_after (trace_of (save_analysis_to_file formatted filename) w)
         filename
       = Some (file_header date_out
                 ++ fit_content (file_header date_out) (nl ++ c)).
Proof.
  intros Hd Hm Hmm Hb Hf Hdate Hopen Hwrite.
  exists (formatted_head ++ c ++ formatted_tail).
  split; [by apply (format_content w d m mm rest)|].
  split; [by apply strip_wrapped|].
  rewrite (save_writes w _ filename rc date_out date_err) by done.
  by rewrite strip_wrapped.
Qed.

Lemma strip_inverts_format_witness :
  exists formatted,
    format_analysis_output (PDict (response_with (lit "No issues found.")))
      quiet_world
    = ([], Returned formatted)
    /\ strip_formatting formatted = nl ++ lit "No issues found."
    /\ file_after
         (trace_of (save_analysis_to_file formatted default_filename)
            quiet_world)
         default_filename
       = Some (file_header date_line
                 ++ fit_content
                      (file_header date_line)
                      (nl ++ lit "No issues found.")).
Proof.
  apply (strip_inverts_format quiet_world
           (response_with (lit "No issues found."))
           {[ lit "message" := PDict {[ lit "content" := PStr (lit "No issues found.") ]} ]}
           {[ lit "content" := PStr (lit "No issues found.") ]}
           [] (lit "No issues found.") default_filename 0
           date_line []).
  - reflexivity.
  - reflexivity.
  - reflexivity.
  - vm_compute. reflexivity.
  - vm_compute. reflexivity.
  - reflexivity.
  - reflexivity.
  - reflexivity.
Defined.

(** C10, as stated, fails: [banner_line] holds neither the banner nor the
    footer, yet in the report it meets the two newlines that open the
    footer and makes a second banner with them; removing it breaks the
    footer, which then stays. *)
Lemma strip_loses_banner_line :
  contains banner_line banner = false
  /\ contains banner_line footer = false
  /\ outcome_of
       (format_analysis_output (PDict (response_with banner_line)))
       quiet_world
     = Returned (formatted_head ++ banner_line ++ formatted_tail)
  /\ strip_formatting (formatted_head ++ banner_line ++ formatted_tail)
     = nl ++ drop 2 footer
  /\ nl ++ drop 2 footer <> nl ++ banner_line.
Proof.
  repeat split; try (vm_compute; reflexivity).
  vm_compute. discriminate.
Qed.

(** ** A complete run *)

(** Saving does not raise when its error line can be printed: every
    exception is caught and reported. *)
Lemma save_returns (w : World) analysis filename :
  (forall ex, printable w (save_error_line w ex)) ->
  snd (save_analysis_to_file analysis filename w) = Returned tt.
Proof.
  intros Hp. unfold save_analysis_to_file.
  match goal with |- context [try_except ?m _ _] => set (body := m) end.
  unfold try_except. destruct (body w) as [t [[]|ex]]; [done|].
  cbn [is_Exception]. rewrite run_ask. unfold print.
  specialize (Hp ex). unfold printable, save_error_line in Hp.
  by rewrite Hp.
Qed.

(** A response with status 2xx and a JSON body is what the analysis
    returns. *)
Lemma analyze_success (w : World) plan_text api_key endpoint deployment version r v :
  http_post w (build_request plan_text api_key) = Responded r ->
  200 <= status_code r < 300 ->
  json_body r = inl v ->
  analyze_plan_with_azure_openai plan_text api_key endpoint deployment version w
  = ([EvPost (build_request plan_text api_key)], Returned v).
Proof.
  intros Hpost Hstatus Hjson. unfold analyze_plan_with_azure_openai.
  apply try_except_returned.
  unfold requests_post. rewrite run_assoc, run_emit, run_assoc, run_ask, Hpost.
  rewrite run_ret. unfold raise_for_status.
  replace ((400 <=? status_code r) && (status_code r <? 600)) with false
    by (symmetry; apply andb_false_iff; left; apply Z.leb_gt; lia).
  rewrite run_ret. unfold response_json. by rewrite Hjson.
Qed.

(** The text the keyword scan reads from a well-formed response. *)
Lemma scanned_text_content (w : World) (d m mm : gmap pystr pyval) rest c :
  d !! lit "choices" = Some (PList (PDict m :: rest)) ->
  m !! lit "message" = Some (PDict mm) ->
  mm !! lit "content" = Some (PStr c) ->
  scanned_text (PDict d) w = ([], Returned (lower (unicode_lower w) c)).
Proof.
  intros Hd Hm Hmm. unfold scanned_text. cbn [py_get].
  rewrite Hd. cbn [default from_option id]. rewrite run_lift_returned.
  rewrite getitem_int_head, run_lift_returned. cbn [py_get].
  rewrite Hm. cbn [default from_option id]. rewrite run_lift_returned. cbn [py_get].
  rewrite Hmm. cbn [default from_option id]. by rewrite run_lift_returned, run_ask.
Qed.

(** What is done with a well-formed response, up to the last line. *)
Lemma report_content (w : World) (d m mm : gmap pystr pyval) rest c :
  d !! lit "choices" = Some (PList (PDict m :: rest)) ->
  m !! lit "message" = Some (PDict mm) ->
  mm !! lit "content" = Some (PStr c) ->
  let formatted := formatted_head ++ c ++ formatted_tail in
  printable w formatted ->
  snd (save_analysis_to_file formatted default_filename w) = Returned tt ->
  (any_keyword (lower (unicode_lower w) c) = true ->
   printable w msg_critical) ->
  report (PDict d) w
  = after ([EvPrint formatted]
             ++ fst (save_analysis_to_file formatted default_filename w)
             ++ (if any_keyword (lower (unicode_lower w) c)
                 then [EvPrint msg_critical] else []))
      ((print msg_complete ;;; ret 0) w).
Proof.
  intros Hd Hm Hmm formatted Hformatted Hsave Hcritical.
  unfold report. cbn [truthy].
  rewrite (dict_with_key_nonempty _ _ _ Hd). cbn [negb].
  rewrite (run_returned _ _ _ _ _ (format_content w d m mm rest c Hd Hm Hmm)).
  rewrite after_nil, run_print by done. fold formatted.
  destruct (save_analysis_to_file formatted default_filename w)
    as [ts saved] eqn:Es.
  cbn [snd] in Hsave. subst saved.
  rewrite (run_returned _ _ _ _ _ Es).
  rewrite (run_returned _ _ _ _ _
             (scanned_text_content w d m mm rest c Hd Hm Hmm)).
  rewrite after_nil. cbn [fst].
  destruct (any_keyword _).
  - rewrite run_when_true, run_print by (by apply Hcritical).
    rewrite !after_after. by rewrite <- ?app_assoc.
  - rewrite run_when_false.
    rewrite !after_after. by rewrite <- ?app_assoc, ?app_nil_r.
Qed.

(** The whole run of [main] when everything succeeds, up to the last
    line. *)
Lemma main_success (w : World) (key e plan err : pystr) (r : Response)
    (d m mm : gmap pystr pyval) (rest : list pyval) (c : pystr) :
  environ w !! lit "AZURE_OPENAI_API_KEY" = Some key -> key <> [] ->
  environ w !! lit "AZURE_OPENAI_ENDPOINT" = Some e -> e <> [] ->
  run_process w terraform_show = Exited 0 plan err -> plan <> [] ->
  http_post w (build_request (truncate_plan plan) key) = Responded r ->
  200 <= status_code r < 300 ->
  json_body r = inl (PDict d) ->
  d !! lit "choices" = Some (PList (PDict m :: rest)) ->
  m !! lit "message" = Some (PDict mm) ->
  mm !! lit "content" = Some (PStr c) ->
  let formatted := formatted_head ++ c ++ formatted_tail in
  Forall (printable w) (opening_lines w e plan) ->
  printable w formatted ->
  (forall ex, printable w (save_error_line w ex)) ->
  printable w msg_critical ->
  main w
  = after (opening w key e plan
             ++ [EvPrint formatted]
             ++ fst (save_analysis_to_file formatted default_filename w)
             ++ (if any_keyword (lower (unicode_lower w) c)
                 then [EvPrint msg_critical] else []))
      ((print msg_complete ;;; ret 0) w).
Proof.
  intros Hkey Hkey' He He' Hplan Hne Hpost Hstatus Hjson Hd Hm Hmm formatted
    Hopening Hformatted Hsaving Hcritical.
  rewrite (main_analyses w key e plan err [] (PDict d))
    by (try done; by apply (analyze_success _ _ _ _ _ _ r)).
  rewrite (report_content w d m mm rest c Hd Hm Hmm)
    by (try done; by apply save_returns).
  fold formatted. by rewrite after_after, app_nil_r.
Qed.

(** ** The keyword scan *)

Lemma printed_cons ev t :
  printed (ev :: t)
  = match ev with
    | EvPrint line => line :: printed t
    | _ => printed t
    end.
Proof. by destruct ev. Qed.

Lemma In_printed line t : In line (printed t) <-> In (EvPrint line) t.
Proof.
  induction t as [|ev t IH]; [done|].
  rewrite printed_cons.
  destruct ev; cbn [In]; rewrite IH; intuition congruence.
Qed.

Lemma print_not_critical line :
  hd_error line <> Some 35%N -> not_critical (EvPrint line).
Proof. intros H [= ->]. by apply H. Qed.

(** Tells an event from the printing of the critical-issue warning: by
    its kind, by the first character of the line, or by the whole line. *)
Ltac other_line :=
  first
    [ discriminate
    | apply print_not_critical; vm_compute; discriminate
    | let H := fresh in intros [= H]; vm_compute in H; discriminate ].

Lemma save_not_critical analysis :
  emits_only not_critical (save_analysis_to_file analysis default_filename).
Proof. unfold save_analysis_to_file. emits_only_steps; other_line. Qed.

Lemma in_guarded {X} (x : X) (pre post : list X) (b : bool) :
  Forall (fun y => y <> x) pre -> Forall (fun y => y <> x) post ->
  In x (pre ++ (if b then [x] else []) ++ post) <-> b = true.
Proof.
  rewrite !List.Forall_forall. intros Hpre Hpost. rewrite !in_app_iff.
  split.
  - intros [H|[H|H]].
    + by destruct (Hpre _ H).
    + by destruct b.
    + by destruct (Hpost _ H).
  - intros ->. right; left. by left.
Qed.

(** *** Lower case *)

Lemma ascii_lower_below c : (ascii_lower c < 128)%N -> (c < 128)%N.
Proof.
  unfold ascii_lower.
  destruct ((65 <=? c) && (c <=? 90))%N eqn:E; [|done].
  apply andb_true_iff in E as [_ E%N.leb_le]. lia.
Qed.

(** An ASCII stretch of a string is lowered letter by letter, whatever
    stands around it. *)
Lemma lower_from_ascii tbl before k rest :
  Forall (fun c => (c < 128)%N) k ->
  lower_from tbl before (k ++ rest)
  = map ascii_lower k ++ lower_from tbl (before ++ k) rest.
Proof.
  intros H. revert before. induction H as [|c k Hc _ IH]; intros before.
  - by rewrite app_nil_r.
  - cbn [app lower_from map].
    replace (c <? 128)%N with true by (symmetry; by apply N.ltb_lt).
    rewrite IH, <- app_assoc. done.
Qed.

Lemma lower_from_app tbl before a rest :
  exists low,
    lower_from tbl before (a ++ rest)
    = low ++ lower_from tbl (before ++ a) rest.
Proof.
  revert before. induction a as [|c a IH]; intros before.
  - exists []. by rewrite app_nil_r.
  - destruct (IH (before ++ [c])) as [low Hlow].
    cbn [app lower_from]. rewrite Hlow, <- !app_assoc.
    eexists. rewrite app_assoc. reflexivity.
Qed.

(** A keyword written in any mix of upper and lower case is found in the
    lowered text. *)
Lemma lower_contains_keyword tbl a k b keyword :
  map ascii_lower k = keyword ->
  Forall (fun c => (c < 128)%N) keyword ->
  contains (lower tbl (a ++ k ++ b)) keyword = true.
Proof.
  intros Hk Hascii. unfold lower.
  destruct (lower_from_app tbl [] a (k ++ b)) as [low ->].
  rewrite lower_from_ascii.
  - rewrite Hk. apply contains_iff. eauto.
  - subst keyword. apply Forall_map in Hascii.
    eapply Forall_impl; [exact Hascii|].
    intros c. apply ascii_lower_below.
Qed.

(** C9: after a successful analysis whose response carries the content
    [c], in a run whose lines up to the scan can be printed and in which
    the warning can be printed, the critical-issue warning is printed
    exactly when the lowered content holds one of the five keywords.  So a
    content holding [security vulnerability] in any mix of upper and lower
    case gets the warning, and a content whose lowered form holds none of
    the five does not. *)
Theorem main_warns_on_critical_keywords
    (w : World) (key e plan err : pystr) (r : Response)
    (d m mm : gmap pystr pyval) (rest : list pyval) (c : pystr) :
  environ w !! lit "AZURE_OPENAI_API_KEY" = Some key -> key <> [] ->
  environ w !! lit "AZURE_OPENAI_ENDPOINT" = Some e -> e <> [] ->
  run_process w terraform_show = Exited 0 plan err -> plan <> [] ->
  http_post w (build_request (truncate_plan plan) key) = Responded r ->
  200 <= status_code r < 300 ->
  json_body r = inl (PDict d) ->
  d !! lit "choices" = Some (PList (PDict m :: rest)) ->
  m !! lit "message" = Some (PDict mm) ->
  mm !! lit "content" = Some (PStr c) ->
  Forall (printable w) (opening_lines w e plan) ->
  printable w (formatted_head ++ c ++ formatted_tail) ->
  (forall ex, printable w (save_error_line w ex)) ->
  printable w msg_critical ->
  let text := lower (unicode_lower w) c in
  let keywords :=
    [lit "critical"; lit "severe"; lit "high risk";
     lit "security vulnerability"; lit "exposed"] in
  let warned := In msg_critical (printed (trace_of main w)) in
  (warned <->
   exists keyword, In keyword keywords /\ contains text keyword = true)
  /\ (forall a k b,
        c = a ++ k ++ b ->
        map ascii_lower k = lit "security vulnerability" ->
        warned)
  /\ ((forall keyword, In keyword keywords -> contains text keyword = false) ->
      ~ warned).
Proof.
  intros Hkey Hkey' He He' Hplan Hne Hpost Hstatus Hjson Hd Hm Hmm
    Hopening Hformatted Hsaving Hcritical text keywords warned.
  assert (Hiff : warned <->
            exists keyword, In keyword keywords /\ contains text keyword = true).
  { subst warned. rewrite In_printed. unfold trace_of.
    rewrite (main_success w key e plan err r d m mm rest c) by done.
    rewrite fst_after. fold text.
    set (saved := fst (save_analysis_to_file _ _ w)).
    assert (Hsaved : Forall not_critical saved)
      by apply save_not_critical.
    set (last_line := fst ((print msg_complete ;;; ret 0) w)).
    assert (Hlast : Forall not_critical last_line).
    { subst last_line. unfold bind, print.
      destruct (print_error w msg_complete); repeat constructor; other_line. }
    rewrite !app_assoc.
    rewrite <- (app_assoc _ (if any_keyword text then _ else _) _).
    rewrite in_guarded.
    - unfold any_keyword. apply existsb_exists.
    - unfold opening. rewrite !Forall_app.
      repeat split; [|destruct (len plan >? 10000)| | |exact Hsaved];
        repeat constructor; other_line.
    - exact Hlast. }
  split; [exact Hiff|split].
  - intros a k b -> Hk. apply Hiff.
    exists (lit "security vulnerability"). split.
    + subst keywords. cbn [In]. tauto.
    + subst text. apply lower_contains_keyword; [done|].
      repeat constructor.
  - intros Hnone [keyword [Hin Hfound]]%Hiff.
    rewrite (Hnone _ Hin) in Hfound. discriminate.
Qed.

Lemma main_warns_on_critical_keywords_witness :
  In msg_critical (printed (trace_of main finding_world)).
Proof.
  destruct (main_warns_on_critical_keywords finding_world
              (lit "secret") (lit "example.openai.azure.com")
              date_line []
              (mkResponse 200 (lit "{ }") (inl (PDict (response_with finding))))
              (response_with finding)
              {[ lit "message" := PDict {[ lit "content" := PStr finding ]} ]}
              {[ lit "content" := PStr finding ]}
              [] finding)
    as (_ & Hcase & _).
  - reflexivity.
  - discriminate.
  - reflexivity.
  - discriminate.
  - reflexivity.
  - discriminate.
  - reflexivity.
  - cbn [status_code]. lia.
  - reflexivity.
  - reflexivity.
  - reflexivity.
  - reflexivity.
  - repeat constructor.
  - reflexivity.
  - intros ex. reflexivity.
  - reflexivity.
  - apply (Hcase (lit "Found a ") (lit "SECURITY Vulnerability") (lit " here."));
      reflexivity.
Defined.


(** * Further properties *)

(** ** Plan acquisition *)

Lemma env_truthy_inv (o : option pystr) :
  env_truthy o = true -> exists s, o = Some s /\ s <> [].
Proof. destruct o as [[|c s]|]; try discriminate. by exists (c :: s). Qed.

Lemma run_raised {A B} (m : M A) (k : A -> M B) w t e :
  m w = (t, Raised e) -> bind m k w = (t, Raised e).
Proof. unfold bind. by intros ->. Qed.

(** With [check=True] an exit code other than 0 is an exception. *)
Lemma subprocess_run_raised {B} (w : World) argv rc out err
    (k : CompletedProcess -> M B) :
  run_process w argv = Exited rc out err ->
  rc <> 0 ->
  bind (subprocess_run argv true) k w
  = ([EvRun argv], Raised (CalledProcessError rc argv out err)).
Proof.
  intros Hrun Hrc. apply run_raised.
  rewrite (subprocess_run_exited _ _ true _ _ _ Hrun).
  by replace (rc =? 0) with false by (symmetry; by apply Z.eqb_neq).
Qed.

Lemma plan_text_failed (w : World) rc out err :
  run_process w terraform_show = Exited rc out err ->
  rc <> 0 ->
  Forall (printable w)
    (plan_error_lines w (CalledProcessError rc terraform_show out err)) ->
  get_terraform_plan_text w
  = ([EvRun terraform_show;
      EvPrint (lit "Error generating plan text: "
                 ++ str_of_exn w (CalledProcessError rc terraform_show out err));
      EvPrint (lit "stderr: " ++ err)],
     Returned []).
Proof.
  intros Hrun Hrc Hp. unfold get_terraform_plan_text.
  rewrite (try_except_caught _ _ _ w [EvRun terraform_show]
             (CalledProcessError rc terraform_show out err)).
  - rewrite run_ask. unfold plan_error_lines in Hp. cbn [stderr_of] in *.
    by rewrite !run_print by printing.
  - by rewrite (subprocess_run_raised w terraform_show rc out err _ Hrun Hrc).
  - done.
Qed.

(** X1: when [terraform show] exits with a code other than 0, and the
    two lines that report it can be printed, the plan text is the empty
    string and nothing is raised, whatever the command printed; the error
    and the captured standard error are the two lines printed. *)
Theorem plan_text_empty_on_failure (w : World) rc out err :
  run_process w terraform_show = Exited rc out err ->
  rc <> 0 ->
  Forall (printable w)
    [lit "Error generating plan text: "
       ++ str_of_exn w (CalledProcessError rc terraform_show out err);
     lit "stderr: " ++ err] ->
  outcome_of get_terraform_plan_text w = Returned []
  /\ commands_run (trace_of get_terraform_plan_text w) = [terraform_show]
  /\ printed (trace_of get_terraform_plan_text w)
     = [lit "Error generating plan text: "
          ++ str_of_exn w (CalledProcessError rc terraform_show out err);
        lit "stderr: " ++ err].
Proof.
  intros Hrun Hrc Hp. unfold outcome_of, trace_of.
  by rewrite (plan_text_failed w rc out err Hrun Hrc Hp).
Qed.

Lemma plan_text_empty_on_failure_witness :
  outcome_of get_terraform_plan_text failing_plan_world = Returned []
  /\ commands_run (trace_of get_terraform_plan_text failing_plan_world)
     = [terraform_show]
  /\ printed (trace_of get_terraform_plan_text failing_plan_world)
     = [lit "Error generating plan text: "
          ++ str_of_exn failing_plan_world
               (CalledProcessError 1 terraform_show []
                  (lit "Error: no plan"));
        lit "stderr: " ++ lit "Error: no plan"].
Proof.
  apply (plan_text_empty_on_failure failing_plan_world 1 []
           (lit "Error: no plan")).
  - reflexivity.
  - discriminate.
  - repeat constructor.
Defined.

(** X2: an exception of another class than [CalledProcessError] raised
    when the command is started, as when [terraform] is not installed, is
    not caught: it leaves [get_terraform_plan_text] and, the configuration
    being set and the three opening lines printed, [main], before any
    request is sent. *)
Theorem spawn_error_propagates (w : World) (key e : pystr) (ex : exn) :
  environ w !! lit "AZURE_OPENAI_API_KEY" = Some key -> key <> [] ->
  environ w !! lit "AZURE_OPENAI_ENDPOINT" = Some e -> e <> [] ->
  run_process w terraform_show = NotRun ex ->
  is_CalledProcessError ex = false ->
  Forall (printable w) (greeting w e) ->
  get_terraform_plan_text w = ([EvRun terraform_show], Raised ex)
  /\ outcome_of main w = Raised ex
  /\ requests_sent (trace_of main w) = [].
Proof.
  intros Hkey Hkey' He He' Hrun Hclass Hgreet.
  assert (Hplan : get_terraform_plan_text w
                  = ([EvRun terraform_show], Raised ex)).
  { unfold get_terraform_plan_text, try_except, subprocess_run.
    rewrite run_assoc, run_emit, run_assoc, run_ask, Hrun, run_raise.
    cbn [after fst snd app]. by rewrite Hclass. }
  split; [exact Hplan|].
  unfold outcome_of, trace_of. rewrite (main_configured w key e) by done.
  unfold analyse. rewrite (run_raised _ _ _ _ _ Hplan).
  by rewrite after_pair.
Qed.

Lemma spawn_error_propagates_witness :
  get_terraform_plan_text no_terraform_world
  = ([EvRun terraform_show],
     Raised (OtherException (lit "FileNotFoundError")))
  /\ outcome_of main no_terraform_world
     = Raised (OtherException (lit "FileNotFoundError"))
  /\ requests_sent (trace_of main no_terraform_world) = [].
Proof.
  apply (spawn_error_propagates no_terraform_world (lit "secret")
           (lit "example.openai.azure.com")).
  - reflexivity.
  - discriminate.
  - reflexivity.
  - discriminate.
  - reflexivity.
  - reflexivity.
  - repeat constructor.
Defined.

(** X3: with the configuration set, a [terraform show] that exits with a
    code other than 0, or prints nothing, ends [main] with exit code 1
    when the lines of the run can be printed: the error line is printed,
    no request is sent, [date] is not run and the report file is not
    touched. *)
Theorem main_exits_1_without_plan (w : World) (key e : pystr) rc out err :
  environ w !! lit "AZURE_OPENAI_API_KEY" = Some key -> key <> [] ->
  environ w !! lit "AZURE_OPENAI_ENDPOINT" = Some e -> e <> [] ->
  run_process w terraform_show = Exited rc out err ->
  rc <> 0 \/ out = [] ->
  Forall (printable w) (greeting w e) ->
  (rc <> 0 ->
   Forall (printable w)
     (plan_error_lines w (CalledProcessError rc terraform_show out err))) ->
  printable w (lit "##[error]Failed to generate Terraform plan text") ->
  outcome_of main w = Returned 1
  /\ requests_sent (trace_of main w) = []
  /\ commands_run (trace_of main w) = [terraform_show]
  /\ file_after (trace_of main w) default_filename = None
  /\ List.last (printed (trace_of main w)) []
     = lit "##[error]Failed to generate Terraform plan text".
Proof.
  intros Hkey Hkey' He He' Hrun Hcase Hgreet Hlines Hline.
  unfold outcome_of, trace_of. rewrite (main_configured w key e) by done.
  unfold analyse.
  destruct (Z.eq_dec rc 0) as [->|Hrc].
  - destruct Hcase as [?| ->]; [done|].
    rewrite (run_returned _ _ _ _ _ (plan_text_shown _ _ _ Hrun)).
    cbn [str_truthy negb]. by rewrite run_print by done.
  - rewrite (run_returned _ _ _ _ _
               (plan_text_failed _ _ _ _ Hrun Hrc (Hlines Hrc))).
    cbn [str_truthy negb]. by rewrite run_print by done.
Qed.

Lemma main_exits_1_without_plan_witness :
  outcome_of main failing_plan_world = Returned 1
  /\ requests_sent (trace_of main failing_plan_world) = []
  /\ commands_run (trace_of main failing_plan_world) = [terraform_show]
  /\ file_after (trace_of main failing_plan_world) default_filename = None
  /\ List.last (printed (trace_of main failing_plan_world)) []
     = lit "##[error]Failed to generate Terraform plan text".
Proof.
  apply (main_exits_1_without_plan failing_plan_world (lit "secret")
           (lit "example.openai.azure.com") 1 [] (lit "Error: no plan")).
  - reflexivity.
  - discriminate.
  - reflexivity.
  - discriminate.
  - reflexivity.
  - left. discriminate.
  - repeat constructor.
  - intros _. repeat constructor.
  - reflexivity.
Defined.

(** ** The requests of a run *)

Lemma plan_text_no_post : emits_only not_post get_terraform_plan_text.
Proof. unfold get_terraform_plan_text. emits_only_steps; exact I. Qed.

(** The plan text handed to the analysis is never longer than 10,000
    characters and the marker. *)
Lemma len_truncate_plan plan : len (truncate_plan plan) <= 10029.
Proof.
  destruct (Z_lt_le_dec 10000 (len plan)) as [H|H].
  - rewrite (truncate_long_plan plan H), len_app.
    assert (len plan_truncation_marker = 29) as -> by reflexivity.
    unfold len in *. rewrite length_take. lia.
  - unfold truncate_plan.
    replace (len plan >? 10000) with false; [lia|].
    symmetry. rewrite Z.gtb_ltb. apply Z.ltb_ge. lia.
Qed.

(** From the analysis on, exactly one request is sent. *)
Lemma forward_sends_once (w : World) plan_text key endpoint deployment version :
  requests_sent
    (fst ((let! analysis_response :=
             analyze_plan_with_azure_openai
               plan_text key endpoint deployment version in
           report analysis_response) w))
  = [build_request plan_text key].
Proof.
  pose proof (analyze_sends_once w plan_text key endpoint deployment version)
    as Hsend.
  unfold trace_of in Hsend.
  assert (Hrest : forall r : result pyval,
            requests_sent match r with
                          | Returned resp => fst (report resp w)
                          | Raised _ => []
                          end = []).
  { intros [resp|ex]; [|done].
    apply requests_sent_none, report_no_post. }
  by rewrite trace_bind, requests_sent_app, Hsend, Hrest.
Qed.

(** A line printed, or not printed, before a computation changes nothing
    to the requests: the ones of the computation are sent, or none. *)
Lemma requests_after_print {B} (P : list Request -> Prop) line
    (k : unit -> M B) w :
  P [] -> P (requests_sent (fst (k tt w))) ->
  P (requests_sent (fst (bind (print line) k w))).
Proof.
  intros Hnone Hk. unfold bind, print.
  by destruct (print_error w line).
Qed.

(** X4: in every world [main] sends at most one request, and a request it
    sends goes to the literal URL with a timeout of 60 seconds and carries
    a plan text of at most 10,029 characters: there is no second attempt
    and no other target. *)
Theorem main_sends_at_most_one_request (w : World) :
  (length (requests_sent (trace_of main w)) <= 1)%nat
  /\ forall req,
       In req (requests_sent (trace_of main w)) ->
       url req = request_url
       /\ timeout req = 60
       /\ exists plan_text key,
            req = build_request plan_text key /\ len plan_text <= 10029.
Proof.
  assert (Hcases :
            requests_sent (trace_of main w) = []
            \/ exists plan_text key,
                 requests_sent (trace_of main w)
                 = [build_request plan_text key]
                 /\ len plan_text <= 10029).
  { unfold trace_of.
    destruct (env_truthy (environ w !! lit "AZURE_OPENAI_API_KEY")) eqn:Hk;
      [destruct (env_truthy (environ w !! lit "AZURE_OPENAI_ENDPOINT")) eqn:He|].
    - apply env_truthy_inv in Hk as (key & Hkey & Hkey').
      apply env_truthy_inv in He as (e & He & He').
      rewrite (main_greets w key e) by done.
      do 3 (apply requests_after_print; [by left|]).
      unfold analyse. rewrite trace_bind, requests_sent_app.
      rewrite (requests_sent_none _ (plan_text_no_post w)). cbn [app].
      destruct (snd (get_terraform_plan_text w)) as [plan|ex]; [|by left].
      destruct (str_truthy plan); cbn [negb].
      + assert (Hsent : exists plan_text key0,
                  requests_sent
                    (fst ((let! analysis_response :=
                             analyze_plan_with_azure_openai
                               (truncate_plan plan) key (normalize_endpoint e)
                               (deployment_of w) (api_version_of w) in
                           report analysis_response) w))
                  = [build_request plan_text key0]
                  /\ len plan_text <= 10029).
        { exists (truncate_plan plan), key.
          split; [apply forward_sends_once|apply len_truncate_plan]. }
        destruct (len plan >? 10000).
        * rewrite run_when_true.
          apply requests_after_print; [by left|by right].
        * rewrite run_when_false. by right.
      + apply requests_after_print; by left.
    - unfold main. autorewrite with run. rewrite Hk, He. cbn [negb].
      do 2 (apply requests_after_print; [by left|]). by left.
    - unfold main. autorewrite with run. rewrite Hk. cbn [negb].
      do 2 (apply requests_after_print; [by left|]). by left. }
  destruct Hcases as [->|(plan_text & key & -> & Hlen)].
  - split; [cbn; lia|]. by intros req [].
  - split; [cbn; lia|]. intros req [<-|[]].
    repeat split. by exists plan_text, key.
Qed.

Lemma main_sends_at_most_one_request_witness :
  url (build_request (truncate_plan date_line) (lit "secret")) = request_url
  /\ timeout (build_request (truncate_plan date_line) (lit "secret")) = 60
  /\ exists plan_text key,
       build_request (truncate_plan date_line) (lit "secret")
       = build_request plan_text key
       /\ len plan_text <= 10029.
Proof.
  destruct (main_sends_at_most_one_request finding_world) as [_ Hreq].
  apply Hreq. left. reflexivity.
Defined.

(** The trace of the analysis starts with its request. *)
Lemma analyze_posts_first w plan_text api_key endpoint deployment_name api_version :
  exists rest,
    fst (analyze_plan_with_azure_openai
           plan_text api_key endpoint deployment_name api_version w)
    = EvPost (build_request plan_text api_key) :: rest.
Proof.
  run_request.
  destruct (http_post w _) as [r|e]; cbn [fst snd app].
  - destruct ((400 <=? status_code r) && (status_code r <? 600));
      cbn [fst snd app]; [by eexists|].
    destruct (json_body r) as [v|[|]]; cbn [fst snd app]; by eexists.
  - destruct e as [| | | | |k [r|]| | | |]; cbn [fst snd app]; by eexists.
Qed.

(** X5: a plan of at most 10,000 characters, 10,000 included, goes into
    the request as it is: after the three opening lines, when they can be
    printed, and the [terraform show] command the next event is the
    request built from the unchanged plan text, with no truncation warning
    before it. *)
Theorem main_forwards_short_plan (w : World) (key e plan err : pystr) :
  environ w !! lit "AZURE_OPENAI_API_KEY" = Some key -> key <> [] ->
  environ w !! lit "AZURE_OPENAI_ENDPOINT" = Some e -> e <> [] ->
  run_process w terraform_show = Exited 0 plan err ->
  plan <> [] ->
  len plan <= 10000 ->
  Forall (printable w) (greeting w e) ->
  exists rest,
    trace_of main w
    = [EvPrint msg_analyzing;
       EvPrint (lit "Using endpoint: " ++ normalize_endpoint e);
       EvPrint (lit "Using deployment: " ++ deployment_of w);
       EvRun terraform_show;
       EvPost (build_request plan key)] ++ rest.
Proof.
  intros Hkey Hkey' He He' Hplan Hne Hlen Hgreet.
  unfold trace_of. rewrite (main_configured w key e) by done.
  unfold analyse.
  rewrite (run_returned _ _ _ _ _ (plan_text_shown _ _ _ Hplan)).
  replace (str_truthy plan) with true by (by destruct plan).
  unfold truncate_plan.
  replace (len plan >? 10000) with false
    by (symmetry; rewrite Z.gtb_ltb; apply Z.ltb_ge; lia).
  cbn [negb]. rewrite run_when_false, !fst_after, trace_bind.
  destruct (analyze_posts_first w plan key (normalize_endpoint e)
              (deployment_of w) (api_version_of w)) as [rest ->].
  eexists. cbn [app]. reflexivity.
Qed.

Lemma main_forwards_short_plan_witness :
  exists rest,
    trace_of main quiet_world
    = [EvPrint msg_analyzing;
       EvPrint (lit "Using endpoint: "
                  ++ normalize_endpoint (lit "example.openai.azure.com"));
       EvPrint (lit "Using deployment: " ++ deployment_of quiet_world);
       EvRun terraform_show;
       EvPost (build_request date_line (lit "secret"))] ++ rest.
Proof.
  apply (main_forwards_short_plan quiet_world (lit "secret")
           (lit "example.openai.azure.com") date_line []).
  - reflexivity.
  - discriminate.
  - reflexivity.
  - discriminate.
  - reflexivity.
  - discriminate.
  - vm_compute. discriminate.
  - repeat constructor.
Defined.

(** ** More on saving *)

Lemma fit_short_content (header plain : pystr) :
  len plain <= 4000 - len header -> fit_content header plain = plain.
Proof.
  intros H. unfold fit_content.
  by replace (len plain >? 4000 - len header) with false
    by (symmetry; rewrite Z.gtb_ltb; apply Z.ltb_ge; lia).
Qed.

(** X6: content that fits, its length being at most 4000 minus the length
    of the header, that bound included, is written after the header as it
    is, without the truncation notice. *)
Theorem save_keeps_short_content
    (w : World) (analysis filename : pystr) rc date_out date_err :
  run_process w [lit "date"] = Exited rc date_out date_err ->
  open_error w filename = None ->
  (forall data, write_error w filename data = None) ->
  len (strip_formatting analysis) <= 4000 - len (file_header date_out) ->
  file_after (trace_of (save_analysis_to_file analysis filename) w) filename
  = Some (file_header date_out ++ strip_formatting analysis)
  /\ len (file_header date_out ++ strip_formatting analysis) <= 4000.
Proof.
  intros Hdate Hopen Hwrite Hlen.
  rewrite (save_writes w analysis filename rc date_out date_err) by done.
  rewrite fit_short_content by done.
  split; [done|]. rewrite len_app. lia.
Qed.

Lemma save_keeps_short_content_witness :
  file_after
    (trace_of (save_analysis_to_file (lit "All good.") default_filename)
       quiet_world)
    default_filename
  = Some (file_header date_line ++ strip_formatting (lit "All good."))
  /\ len (file_header date_line ++ strip_formatting (lit "All good.")) <= 4000.
Proof.
  apply (save_keeps_short_content quiet_world (lit "All good.")
           default_filename 0 date_line []).
  - reflexivity.
  - reflexivity.
  - reflexivity.
  - vm_compute. discriminate.
Defined.

(** X7: whatever the report, with a header of at most 3950 characters the
    file written starts with the header and has at most 4000 characters:
    the content behind the header is the stripped report, or its cut
    followed by the notice. *)
Theorem save_caps_file
    (w : World) (analysis filename : pystr) rc date_out date_err :
  run_process w [lit "date"] = Exited rc date_out date_err ->
  open_error w filename = None ->
  (forall data, write_error w filename data = None) ->
  len (file_header date_out) <= 3950 ->
  exists content,
    file_after (trace_of (save_analysis_to_file analysis filename) w) filename
    = Some (file_header date_out ++ content)
    /\ len (file_header date_out ++ content) <= 4000
    /\ (content = strip_formatting analysis
        \/ exists kept,
             content = kept ++ truncation_notice
             /\ startswith (strip_formatting analysis) kept = true).
Proof.
  intros Hdate Hopen Hwrite Hh.
  rewrite (save_writes w analysis filename rc date_out date_err) by done.
  set (header := file_header date_out) in *.
  set (plain := strip_formatting analysis).
  destruct (Z_lt_le_dec (4000 - len header) (len plain)) as [Hlong|Hshort].
  - destruct (fit_long_content header plain Hh Hlong) as [Hfit Hkept].
    exists (fit_content header plain). rewrite Hfit. split; [done|]. split.
    + rewrite !len_app, Hkept, len_truncation_notice. lia.
    + right. eexists. split; [done|].
      rewrite <- (take_drop (Z.to_nat (3950 - len header)) plain) at 1.
      apply startswith_app.
  - exists plain. rewrite fit_short_content by done.
    split; [done|]. split; [rewrite len_app; lia|by left].
Qed.

Lemma save_caps_file_witness :
  exists content,
    file_after
      (trace_of (save_analysis_to_file (lit "All good.") default_filename)
         quiet_world)
      default_filename
    = Some (file_header date_line ++ content)
    /\ len (file_header date_line ++ content) <= 4000
    /\ (content = strip_formatting (lit "All good.")
        \/ exists kept,
             content = kept ++ truncation_notice
             /\ startswith (strip_formatting (lit "All good.")) kept = true).
Proof.
  apply (save_caps_file quiet_world (lit "All good.") default_filename 0
           date_line []).
  - reflexivity.
  - reflexivity.
  - reflexivity.
  - vm_compute. discriminate.
Defined.

(** X8: when the file cannot be opened, and the line that reports it can
    be printed, saving raises nothing: the error is printed, nothing is
    written and the line announcing the saved file is not printed. *)
Theorem save_reports_open_failure
    (w : World) (analysis filename : pystr) rc date_out date_err (ex : exn) :
  run_process w [lit "date"] = Exited rc date_out date_err ->
  open_error w filename = Some ex ->
  printable w (lit "Error saving analysis to file: " ++ str_of_exn w ex) ->
  outcome_of (save_analysis_to_file analysis filename) w = Returned tt
  /\ printed (trace_of (save_analysis_to_file analysis filename) w)
     = [lit "Error saving analysis to file: " ++ str_of_exn w ex]
  /\ file_after (trace_of (save_analysis_to_file analysis filename) w) filename
     = None.
Proof.
  intros Hdate Hopen Hline.
  unfold outcome_of, trace_of, save_analysis_to_file.
  erewrite (try_except_caught _ _ _ w [EvRun [lit "date"]] ex).
  - rewrite run_ask. unfold print. unfold printable in Hline.
    by rewrite Hline.
  - rewrite (run_returned _ _ _ _ _
               (subprocess_run_exited _ _ false _ _ _ Hdate)).
    unfold open_w. by rewrite run_assoc, run_ask, Hopen, run_raise.
  - done.
Qed.

Lemma save_reports_open_failure_witness :
  outcome_of (save_analysis_to_file (lit "All good.") default_filename)
    read_only_world
  = Returned tt
  /\ printed (trace_of (save_analysis_to_file (lit "All good.") default_filename)
                read_only_world)
     = [lit "Error saving analysis to file: "
          ++ str_of_exn read_only_world (OSError 13)]
  /\ file_after
       (trace_of (save_analysis_to_file (lit "All good.") default_filename)
          read_only_world)
       default_filename
     = None.
Proof.
  apply (save_reports_open_failure read_only_world (lit "All good.")
           default_filename 0 date_line [] (OSError 13)); reflexivity.
Defined.

(** X9: a text in which neither the banner nor the footer occurs comes out
    of the stripping unchanged. *)
Theorem strip_formatting_absent (s : pystr) :
  contains s banner = false ->
  contains s footer = false ->
  strip_formatting s = s.
Proof.
  intros Hb Hf. unfold strip_formatting.
  rewrite !replace_nonempty by discriminate.
  rewrite (replace_from_absent banner [] s) by (done || discriminate).
  by rewrite (replace_from_absent footer [] s) by (done || discriminate).
Qed.

Lemma strip_formatting_absent_witness :
  strip_formatting failure_marker = failure_marker.
Proof.
  apply (strip_formatting_absent failure_marker); vm_compute; reflexivity.
Defined.

(** ** More on the analysis request *)

(** X10: only [RequestException]s are caught.  Another exception raised by
    [requests.post], or the [ValueError] an older [requests] raises for a
    body that is not JSON, leaves the function with nothing printed. *)
Theorem analyze_propagates_other_errors
    (w : World) (plan_text api_key endpoint deployment_name api_version : pystr)
    (ex : exn) :
  (http_post w (build_request plan_text api_key) = PostFailed ex
   /\ is_RequestException ex = false)
  \/ (exists r,
        http_post w (build_request plan_text api_key) = Responded r
        /\ ~ (400 <= status_code r < 600)
        /\ json_body r = inr DecoderValueError
        /\ ex = ValueError) ->
  analyze_plan_with_azure_openai
    plan_text api_key endpoint deployment_name api_version w
  = ([EvPost (build_request plan_text api_key)], Raised ex).
Proof.
  intros H. unfold analyze_plan_with_azure_openai, try_except, requests_post.
  rewrite run_assoc, run_emit, run_assoc, run_ask.
  destruct H as [[-> Hclass]|(r & -> & Hstatus & Hjson & ->)].
  - rewrite run_raise. cbn [after fst snd app]. by rewrite Hclass.
  - rewrite run_ret. unfold raise_for_status.
    replace ((400 <=? status_code r) && (status_code r <? 600)) with false.
    + rewrite run_ret. unfold response_json. by rewrite Hjson.
    + symmetry. apply andb_false_iff.
      destruct (Z.leb_spec 400 (status_code r)); [right|by left].
      apply Z.ltb_ge. lia.
Qed.

Lemma analyze_propagates_other_errors_witness :
  analyze_plan_with_azure_openai
    (lit "plan") (lit "secret") (lit "https://host") (lit "gpt-4")
    (lit "2024-02-15-preview") broken_client_world
  = ([EvPost (build_request (lit "plan") (lit "secret"))],
     Raised (OtherException (lit "RuntimeError"))).
Proof.
  apply (analyze_propagates_other_errors broken_client_world).
  left. split; reflexivity.
Defined.

(** A response whose status is no error status and whose body is JSON is
    what the analysis returns. *)
Lemma analyze_body (w : World) plan_text api_key endpoint deployment version r v :
  http_post w (build_request plan_text api_key) = Responded r ->
  ~ (400 <= status_code r < 600) ->
  json_body r = inl v ->
  analyze_plan_with_azure_openai plan_text api_key endpoint deployment version w
  = ([EvPost (build_request plan_text api_key)], Returned v).
Proof.
  intros Hpost Hstatus Hjson. unfold analyze_plan_with_azure_openai.
  apply try_except_returned.
  unfold requests_post. rewrite run_assoc, run_emit, run_assoc, run_ask, Hpost.
  rewrite run_ret. unfold raise_for_status.
  replace ((400 <=? status_code r) && (status_code r <? 600)) with false.
  - rewrite run_ret. unfold response_json. by rewrite Hjson.
  - symmetry. apply andb_false_iff.
    destruct (Z.leb_spec 400 (status_code r)); [right|by left].
    apply Z.ltb_ge. lia.
Qed.

(** ** More complete runs *)

(** The whole run of a save that succeeds. *)
Lemma save_run (w : World) (analysis filename : pystr) rc date_out date_err :
  run_process w [lit "date"] = Exited rc date_out date_err ->
  open_error w filename = None ->
  (forall data, write_error w filename data = None) ->
  printable w (saved_line filename) ->
  save_analysis_to_file analysis filename w
  = ([EvRun [lit "date"];
      EvOpen filename;
      EvWrite filename (file_header date_out);
      EvWrite filename
        (fit_content (file_header date_out) (strip_formatting analysis));
      EvPrint (lit "Analysis saved to " ++ filename
                 ++ lit " (max 4000 characters)")],
     Returned tt).
Proof.
  intros Hdate Hopen Hwrite Hline. unfold save_analysis_to_file.
  apply try_except_returned.
  rewrite (run_returned _ _ _ _ _
             (subprocess_run_exited _ _ false _ _ _ Hdate)).
  cbn [andb cp_stdout]. unfold open_w, write.
  rewrite run_assoc, run_ask, Hopen, run_emit.
  rewrite run_assoc, run_ask, Hwrite, run_emit.
  rewrite run_assoc, run_ask, Hwrite, run_emit.
  unfold printable, saved_line in Hline.
  unfold print, emit. by rewrite Hline, !after_pair.
Qed.

(** With the configuration set, the plan in hand and a decoded response,
    [main] goes on to report the response. *)
Lemma main_reaches_report (w : World) (key e plan err : pystr)
    (r : Response) (v : pyval) :
  environ w !! lit "AZURE_OPENAI_API_KEY" = Some key -> key <> [] ->
  environ w !! lit "AZURE_OPENAI_ENDPOINT" = Some e -> e <> [] ->
  run_process w terraform_show = Exited 0 plan err -> plan <> [] ->
  http_post w (build_request (truncate_plan plan) key) = Responded r ->
  ~ (400 <= status_code r < 600) ->
  json_body r = inl v ->
  Forall (printable w) (opening_lines w e plan) ->
  main w = after (opening w key e plan) (report v w).
Proof.
  intros Hkey Hkey' He He' Hplan Hne Hpost Hstatus Hjson Hopening.
  rewrite (main_analyses w key e plan err [] v)
    by (try done; by apply (analyze_body _ _ _ _ _ _ r)).
  by rewrite app_nil_r.
Qed.

(** The opening of a run sends its request and writes no file. *)
Lemma file_after_opening (w : World) key e plan t name :
  file_after (opening w key e plan ++ t) name = file_after t name.
Proof.
  unfold opening, file_after.
  rewrite fold_left_app. f_equal.
  by destruct (len plan >? 10000).
Qed.

(** X11: a decoded response that is false for Python, as [{}], [null],
    [[]], [0] or the empty string, is a failure to [main]: when the lines
    of the run can be printed, the error line is printed and the exit code
    is 1; [date] is not run and the report file is not touched. *)
Theorem main_exits_1_on_falsy_response (w : World) (key e plan err : pystr)
    (r : Response) (v : pyval) :
  environ w !! lit "AZURE_OPENAI_API_KEY" = Some key -> key <> [] ->
  environ w !! lit "AZURE_OPENAI_ENDPOINT" = Some e -> e <> [] ->
  run_process w terraform_show = Exited 0 plan err -> plan <> [] ->
  http_post w (build_request (truncate_plan plan) key) = Responded r ->
  ~ (400 <= status_code r < 600) ->
  json_body r = inl v ->
  truthy v = false ->
  Forall (printable w) (opening_lines w e plan) ->
  printable w (lit "##[error]Failed to get analysis from Azure OpenAI") ->
  main w
  = (opening w key e plan
       ++ [EvPrint (lit "##[error]Failed to get analysis from Azure OpenAI")],
     Returned 1)
  /\ commands_run (trace_of main w) = [terraform_show]
  /\ file_after (trace_of main w) default_filename = None.
Proof.
  intros Hkey Hkey' He He' Hplan Hne Hpost Hstatus Hjson Hfalsy
    Hopening Hline.
  assert (Hmain : main w
            = (opening w key e plan
                 ++ [EvPrint (lit "##[error]Failed to get analysis from Azure OpenAI")],
               Returned 1)).
  { rewrite (main_reaches_report w key e plan err r v) by done.
    unfold report. rewrite Hfalsy. cbn [negb].
    by rewrite run_print by done. }
  split; [exact Hmain|]. unfold trace_of. rewrite Hmain. cbn [fst]. split.
  - unfold opening. by destruct (len plan >? 10000).
  - by rewrite file_after_opening.
Qed.

Lemma main_exits_1_on_falsy_response_witness :
  main null_world
  = (opening null_world (lit "secret") (lit "example.openai.azure.com")
       date_line
       ++ [EvPrint (lit "##[error]Failed to get analysis from Azure OpenAI")],
     Returned 1)
  /\ commands_run (trace_of main null_world) = [terraform_show]
  /\ file_after (trace_of main null_world) default_filename = None.
Proof.
  apply (main_exits_1_on_falsy_response null_world (lit "secret")
           (lit "example.openai.azure.com") date_line []
           (mkResponse 200 (lit "null") (inl PNone)) PNone).
  - reflexivity.
  - discriminate.
  - reflexivity.
  - discriminate.
  - reflexivity.
  - discriminate.
  - reflexivity.
  - cbn [status_code]. lia.
  - reflexivity.
  - reflexivity.
  - repeat constructor.
  - reflexivity.
Defined.

(** X12: with the configuration set and the plan in hand, a request that
    fails, by a [RequestException] or by a status from 400 to 599, ends
    [main] with exit code 1 after that one request, when the lines of the
    run can be printed: there is no second attempt, [date] is not run and
    the report file is not touched. *)
Theorem main_exits_1_on_request_failure
    (w : World) (key e plan err : pystr) (ex : exn) :
  environ w !! lit "AZURE_OPENAI_API_KEY" = Some key -> key <> [] ->
  environ w !! lit "AZURE_OPENAI_ENDPOINT" = Some e -> e <> [] ->
  run_process w terraform_show = Exited 0 plan err -> plan <> [] ->
  request_fails w (build_request (truncate_plan plan) key) ex ->
  Forall (printable w) (opening_lines w e plan) ->
  Forall (printable w) (request_error_lines w ex) ->
  printable w (lit "##[error]Failed to get analysis from Azure OpenAI") ->
  outcome_of main w = Returned 1
  /\ requests_sent (trace_of main w)
     = [build_request (truncate_plan plan) key]
  /\ commands_run (trace_of main w) = [terraform_show]
  /\ file_after (trace_of main w) default_filename = None
  /\ printed (trace_of main w)
     = opening_lines w e plan
         ++ request_error_lines w ex
         ++ [lit "##[error]Failed to get analysis from Azure OpenAI"].
Proof.
  intros Hkey Hkey' He He' Hplan Hne Hfail Hopening Hlines Hline.
  unfold outcome_of, trace_of.
  rewrite (main_request_failed w key e plan err ex) by done.
  cbn [fst snd].
  assert (Hopen : requests_sent (opening w key e plan)
                  = [build_request (truncate_plan plan) key]
                  /\ commands_run (opening w key e plan) = [terraform_show]
                  /\ printed (opening w key e plan) = opening_lines w e plan)
    by (unfold opening, opening_lines, greeting, truncation_lines;
        by destruct (len plan >? 10000)).
  destruct Hopen as (Hsent & Hrun & Hprinted).
  repeat split.
  - by rewrite requests_sent_app, Hsent, requests_sent_prints.
  - by rewrite commands_run_app, Hrun, commands_run_prints.
  - rewrite file_after_opening. apply file_after_prints.
  - by rewrite printed_app, printed_prints, Hprinted.
Qed.

Lemma main_exits_1_on_request_failure_witness :
  outcome_of main unavailable_world = Returned 1
  /\ requests_sent (trace_of main unavailable_world)
     = [build_request (truncate_plan date_line) (lit "secret")]
  /\ commands_run (trace_of main unavailable_world) = [terraform_show]
  /\ file_after (trace_of main unavailable_world) default_filename = None
  /\ printed (trace_of main unavailable_world)
     = opening_lines unavailable_world (lit "example.openai.azure.com")
         date_line
         ++ request_error_lines unavailable_world
              (RequestException HTTPError
                 (Some (mkResponse 503 (lit "Service Unavailable")
                          (inr RequestsJSONDecodeError))))
         ++ [lit "##[error]Failed to get analysis from Azure OpenAI"].
Proof.
  apply (main_exits_1_on_request_failure unavailable_world (lit "secret")
           (lit "example.openai.azure.com") date_line []).
  - reflexivity.
  - discriminate.
  - reflexivity.
  - discriminate.
  - reflexivity.
  - discriminate.
  - right. eexists. split; [reflexivity|]. cbn [status_code]. split; [lia|done].
  - repeat constructor.
  - repeat constructor.
  - reflexivity.
Defined.

(** ** More on formatting *)

(** The report of a response whose first choice has a message with a
    content, of whatever type. *)
Lemma format_any_content (w : World) (d m mm : gmap pystr pyval) rest v :
  d !! lit "choices" = Some (PList (PDict m :: rest)) ->
  m !! lit "message" = Some (PDict mm) ->
  mm !! lit "content" = Some v ->
  format_analysis_output (PDict d) w
  = ([], Returned (formatted_head ++ format_value w v ++ formatted_tail)).
Proof.
  intros Hd Hm Hmm. rewrite (format_with_choices w d _ Hd).
  cbn [getitem_str]. rewrite Hm, run_lift_returned.
  cbn [getitem_str]. rewrite Hmm, run_lift_returned.
  by rewrite run_ask.
Qed.

(** X13: a first choice without [message], or a message without
    [content], is no case for the failure marker: the function raises
    [KeyError] with the missing key. *)
Theorem format_raises_on_missing_field
    (w : World) (d m : gmap pystr pyval) (rest : list pyval) :
  d !! lit "choices" = Some (PList (PDict m :: rest)) ->
  (m !! lit "message" = None ->
   format_analysis_output (PDict d) w
   = ([], Raised (KeyError (PStr (lit "message")))))
  /\ (forall mm : gmap pystr pyval,
        m !! lit "message" = Some (PDict mm) ->
        mm !! lit "content" = None ->
        format_analysis_output (PDict d) w
        = ([], Raised (KeyError (PStr (lit "content"))))).
Proof.
  intros Hd. rewrite (format_with_choices w d _ Hd). split.
  - intros Hm. cbn [getitem_str]. by rewrite Hm, run_lift_raised.
  - intros mm Hm Hmm. cbn [getitem_str]. rewrite Hm, run_lift_returned.
    cbn [getitem_str]. by rewrite Hmm, run_lift_raised.
Qed.

Lemma format_raises_on_missing_field_witness :
  format_analysis_output (PDict no_message) quiet_world
  = ([], Raised (KeyError (PStr (lit "message")))).
Proof.
  apply (format_raises_on_missing_field quiet_world no_message
           {[ lit "finish_reason" := PStr (lit "length") ]} []).
  - reflexivity.
  - reflexivity.
Defined.

(** X14: with [choices] the empty list the exception leaves [main]: once
    the opening lines are printed, the run ends with [IndexError] right
    after the request, with no report printed, [date] not run and the
    report file not touched. *)
Theorem main_raises_on_empty_choices (w : World) (key e plan err : pystr)
    (r : Response) (d : gmap pystr pyval) :
  environ w !! lit "AZURE_OPENAI_API_KEY" = Some key -> key <> [] ->
  environ w !! lit "AZURE_OPENAI_ENDPOINT" = Some e -> e <> [] ->
  run_process w terraform_show = Exited 0 plan err -> plan <> [] ->
  http_post w (build_request (truncate_plan plan) key) = Responded r ->
  ~ (400 <= status_code r < 600) ->
  json_body r = inl (PDict d) ->
  d !! lit "choices" = Some (PList []) ->
  Forall (printable w) (opening_lines w e plan) ->
  main w = (opening w key e plan, Raised IndexError)
  /\ commands_run (trace_of main w) = [terraform_show]
  /\ file_after (trace_of main w) default_filename = None.
Proof.
  intros Hkey Hkey' He He' Hplan Hne Hpost Hstatus Hjson Hd Hopening.
  assert (Hmain : main w = (opening w key e plan, Raised IndexError)).
  { rewrite (main_reaches_report w key e plan err r (PDict d)) by done.
    unfold report. cbn [truthy].
    rewrite (dict_with_key_nonempty _ _ _ Hd). cbn [negb].
    rewrite (run_raised _ _ _ _ _ (format_with_choices w d [] Hd)).
    by rewrite after_pair, app_nil_r. }
  split; [exact Hmain|]. unfold trace_of. rewrite Hmain. cbn [fst]. split.
  - unfold opening. by destruct (len plan >? 10000).
  - rewrite <- (app_nil_r (opening w key e plan)).
    by rewrite file_after_opening.
Qed.

Lemma main_raises_on_empty_choices_witness :
  main (answering empty_choices)
  = (opening (answering empty_choices) (lit "secret")
       (lit "example.openai.azure.com") date_line,
     Raised IndexError)
  /\ commands_run (trace_of main (answering empty_choices)) = [terraform_show]
  /\ file_after (trace_of main (answering empty_choices)) default_filename
     = None.
Proof.
  apply (main_raises_on_empty_choices (answering empty_choices) (lit "secret")
           (lit "example.openai.azure.com") date_line []
           (mkResponse 200 (lit "{ }") (inl (PDict empty_choices)))
           empty_choices).
  - reflexivity.
  - discriminate.
  - reflexivity.
  - discriminate.
  - reflexivity.
  - discriminate.
  - reflexivity.
  - cbn [status_code]. lia.
  - reflexivity.
  - reflexivity.
  - repeat constructor.
Defined.

(** The keyword scan reads the empty string from a response without
    [choices]. *)
Lemma scanned_text_without_choices (w : World) (d : gmap pystr pyval) :
  d !! lit "choices" = None ->
  scanned_text (PDict d) w = ([], Returned []).
Proof.
  intros Hd. unfold scanned_text. cbn [py_get].
  rewrite Hd. cbn [default from_option id]. rewrite run_lift_returned.
  rewrite getitem_int_head, run_lift_returned. cbn [py_get].
  rewrite lookup_empty. cbn [default from_option id].
  rewrite run_lift_returned. cbn [py_get].
  rewrite lookup_empty. cbn [default from_option id].
  by rewrite run_lift_returned, run_ask.
Qed.

(** The failure marker holds neither banner nor footer. *)
Lemma strip_marker : strip_formatting failure_marker = failure_marker.
Proof. vm_compute. reflexivity. Qed.

(** X15: a response that is not empty and has no [choices], as an error
    object, is no failure to [main]: when the lines of the run can be
    printed, the failure marker is printed in place of a report and saved,
    no critical-issue warning is printed and the exit code is 0; with a
    usual header the file holds the header followed by the marker. *)
Theorem main_exits_0_without_choices (w : World) (key e plan err : pystr)
    (r : Response) (d : gmap pystr pyval) rc date_out date_err :
  environ w !! lit "AZURE_OPENAI_API_KEY" = Some key -> key <> [] ->
  environ w !! lit "AZURE_OPENAI_ENDPOINT" = Some e -> e <> [] ->
  run_process w terraform_show = Exited 0 plan err -> plan <> [] ->
  http_post w (build_request (truncate_plan plan) key) = Responded r ->
  ~ (400 <= status_code r < 600) ->
  json_body r = inl (PDict d) ->
  d <> ∅ ->
  d !! lit "choices" = None ->
  run_process w [lit "date"] = Exited rc date_out date_err ->
  open_error w default_filename = None ->
  (forall data, write_error w default_filename data = None) ->
  len (file_header date_out) <= 3950 ->
  Forall (printable w) (opening_lines w e plan) ->
  printable w failure_marker ->
  printable w (saved_line default_filename) ->
  printable w msg_complete ->
  main w
  = (opening w key e plan
       ++ [EvPrint failure_marker]
       ++ fst (save_analysis_to_file failure_marker default_filename w)
       ++ [EvPrint msg_complete],
     Returned 0)
  /\ ~ In msg_critical (printed (trace_of main w))
  /\ file_after (trace_of main w) default_filename
     = Some (file_header date_out ++ failure_marker).
Proof.
  intros Hkey Hkey' He He' Hplan Hne Hpost Hstatus Hjson Hd Hchoices
    Hdate Hopen Hwrite Hheader Hopening Hmarker Hsaved Hcomplete.
  set (saved := fst (save_analysis_to_file failure_marker default_filename w)).
  assert (Hmain : main w
            = (opening w key e plan ++ [EvPrint failure_marker] ++ saved
                 ++ [EvPrint msg_complete],
               Returned 0)).
  { rewrite (main_reaches_report w key e plan err r (PDict d)) by done.
    unfold report. cbn [truthy].
    rewrite bool_decide_eq_false_2 by done. cbn [negb].
    rewrite (run_returned _ _ _ _ _ (format_without_choices w d Hchoices)).
    rewrite after_nil, run_print by done.
    assert (Hsave : snd (save_analysis_to_file failure_marker
                           default_filename w) = Returned tt)
      by (by rewrite (save_run w failure_marker default_filename rc
                        date_out date_err)).
    destruct (save_analysis_to_file failure_marker default_filename w)
      as [ts result] eqn:Es.
    cbn [snd] in Hsave. subst result. subst saved. cbn [fst].
    rewrite (run_returned _ _ _ _ _ Es).
    rewrite (run_returned _ _ _ _ _ (scanned_text_without_choices w d Hchoices)).
    rewrite after_nil.
    change (any_keyword []) with false.
    rewrite run_when_false, run_print by done.
    unfold ret. by rewrite !after_pair. }
  split; [exact Hmain|]. unfold trace_of. rewrite Hmain. cbn [fst]. split.
  - rewrite In_printed. intros Hin.
    assert (Hall : Forall not_critical
                     (opening w key e plan ++ [EvPrint failure_marker]
                        ++ saved ++ [EvPrint msg_complete])).
    { unfold opening. repeat apply Forall_app_2;
        [|destruct (len plan >? 10000)| | |apply save_not_critical|];
        repeat constructor; other_line. }
    rewrite List.Forall_forall in Hall. by apply (Hall _ Hin).
  - rewrite file_after_opening. unfold file_after.
    change ([EvPrint failure_marker] ++ saved ++ [EvPrint msg_complete])
      with (EvPrint failure_marker :: (saved ++ [EvPrint msg_complete])).
    cbn [fold_left file_step]. rewrite fold_left_app. cbn [fold_left file_step].
    pose proof (save_writes w failure_marker default_filename rc date_out
                  date_err Hdate Hopen Hwrite) as Hfile.
    unfold file_after, trace_of in Hfile. subst saved. rewrite Hfile.
    rewrite strip_marker, fit_short_content; [done|].
    assert (len failure_marker = 44) as -> by reflexivity. lia.
Qed.

Lemma main_exits_0_without_choices_witness :
  main (answering error_body)
  = (opening (answering error_body) (lit "secret")
       (lit "example.openai.azure.com") date_line
       ++ [EvPrint failure_marker]
       ++ fst (save_analysis_to_file failure_marker default_filename
                 (answering error_body))
       ++ [EvPrint msg_complete],
     Returned 0)
  /\ ~ In msg_critical (printed (trace_of main (answering error_body)))
  /\ file_after (trace_of main (answering error_body)) default_filename
     = Some (file_header date_line ++ failure_marker).
Proof.
  apply (main_exits_0_without_choices (answering error_body) (lit "secret")
           (lit "example.openai.azure.com") date_line []
           (mkResponse 200 (lit "{ }") (inl (PDict error_body)))
           error_body 0 date_line []).
  - reflexivity.
  - discriminate.
  - reflexivity.
  - discriminate.
  - reflexivity.
  - discriminate.
  - reflexivity.
  - cbn [status_code]. lia.
  - reflexivity.
  - intros H. apply (f_equal (fun m => m !! lit "error")) in H.
    vm_compute in H. discriminate.
  - reflexivity.
  - reflexivity.
  - reflexivity.
  - reflexivity.
  - vm_compute. discriminate.
  - repeat constructor.
  - reflexivity.
  - reflexivity.
  - reflexivity.
Defined.

(** The keyword scan of a response whose first choice has a message with
    a content lowers that content, if it is a string. *)
Lemma scanned_text_any_content (w : World) (d m mm : gmap pystr pyval) rest v :
  d !! lit "choices" = Some (PList (PDict m :: rest)) ->
  m !! lit "message" = Some (PDict mm) ->
  mm !! lit "content" = Some v ->
  scanned_text (PDict d) w = ([], py_lower w v).
Proof.
  intros Hd Hm Hmm. unfold scanned_text. cbn [py_get].
  rewrite Hd. cbn [default from_option id]. rewrite run_lift_returned.
  rewrite getitem_int_head, run_lift_returned. cbn [py_get].
  rewrite Hm. cbn [default from_option id]. rewrite run_lift_returned.
  cbn [py_get].
  rewrite Hmm. cbn [default from_option id].
  by rewrite run_lift_returned, run_ask.
Qed.

(** X16: a content that is present but is no string, as the [null] of a
    filtered answer, is formatted, printed and saved like any other, when
    the lines up to there can be printed, and then stops [main]: the
    keyword scan calls [lower] on it and the [AttributeError] leaves
    [main] before the closing line. *)
Theorem main_raises_on_non_string_content
    (w : World) (key e plan err : pystr) (r : Response)
    (d m mm : gmap pystr pyval) (rest : list pyval) (v : pyval) :
  environ w !! lit "AZURE_OPENAI_API_KEY" = Some key -> key <> [] ->
  environ w !! lit "AZURE_OPENAI_ENDPOINT" = Some e -> e <> [] ->
  run_process w terraform_show = Exited 0 plan err -> plan <> [] ->
  http_post w (build_request (truncate_plan plan) key) = Responded r ->
  ~ (400 <= status_code r < 600) ->
  json_body r = inl (PDict d) ->
  d !! lit "choices" = Some (PList (PDict m :: rest)) ->
  m !! lit "message" = Some (PDict mm) ->
  mm !! lit "content" = Some v ->
  not_a_string v ->
  let formatted := formatted_head ++ str_of_value w v ++ formatted_tail in
  Forall (printable w) (opening_lines w e plan) ->
  printable w formatted ->
  (forall ex, printable w (save_error_line w ex)) ->
  main w
  = (opening w key e plan
       ++ [EvPrint formatted]
       ++ fst (save_analysis_to_file formatted default_filename w),
     Raised AttributeError).
Proof.
  intros Hkey Hkey' He He' Hplan Hne Hpost Hstatus Hjson Hd Hm Hmm Hv formatted
    Hopening Hformatted Hsaving.
  rewrite (main_reaches_report w key e plan err r (PDict d)) by done.
  unfold report. cbn [truthy].
  rewrite (dict_with_key_nonempty _ _ _ Hd). cbn [negb].
  rewrite (run_returned _ _ _ _ _ (format_any_content w d m mm rest v Hd Hm Hmm)).
  replace (format_value w v) with (str_of_value w v) by (by destruct v).
  fold formatted. rewrite after_nil, run_print by done.
  pose proof (save_returns w formatted default_filename Hsaving) as Hsave.
  destruct (save_analysis_to_file formatted default_filename w)
    as [ts result] eqn:Es.
  cbn [snd] in Hsave. subst result. cbn [fst].
  rewrite (run_returned _ _ _ _ _ Es).
  rewrite (run_raised _ _ _ [] AttributeError).
  - by rewrite !after_pair, app_nil_r.
  - rewrite (scanned_text_any_content w d m mm rest v Hd Hm Hmm).
    by destruct v.
Qed.

Lemma main_raises_on_non_string_content_witness :
  let w := answering null_content in
  let formatted := formatted_head ++ str_of_value w PNone ++ formatted_tail in
  main w
  = (opening w (lit "secret") (lit "example.openai.azure.com") date_line
       ++ [EvPrint formatted]
       ++ fst (save_analysis_to_file formatted default_filename w),
     Raised AttributeError).
Proof.
  apply (main_raises_on_non_string_content (answering null_content)
           (lit "secret") (lit "example.openai.azure.com") date_line []
           (mkResponse 200 (lit "{ }") (inl (PDict null_content)))
           null_content
           {[ lit "message" := PDict {[ lit "content" := PNone ]} ]}
           {[ lit "content" := PNone ]} [] PNone).
  - reflexivity.
  - discriminate.
  - reflexivity.
  - discriminate.
  - reflexivity.
  - discriminate.
  - reflexivity.
  - cbn [status_code]. lia.
  - reflexivity.
  - reflexivity.
  - reflexivity.
  - reflexivity.
  - exact I.
  - repeat constructor.
  - reflexivity.
  - intros ex. reflexivity.
Defined.

(** ** More on the endpoint *)

Lemma lstrip_chars_app chars s t :
  lstrip_chars chars s <> [] ->
  lstrip_chars chars (s ++ t) = lstrip_chars chars s ++ t.
Proof.
  induction s as [|c s IH]; [done|].
  cbn [app lstrip_chars]. destruct (mem_char c chars); [done|by intros _].
Qed.

Lemma rstrip_chars_app chars a s :
  rstrip_chars chars s <> [] ->
  rstrip_chars chars (a ++ s) = a ++ rstrip_chars chars s.
Proof.
  unfold rstrip_chars. intros H.
  rewrite rev_app_distr, lstrip_chars_app.
  - by rewrite rev_app_distr, rev_involutive.
  - intros Hnil. by rewrite Hnil in H.
Qed.

(** A string with a character other than the slash keeps something when
    its trailing slashes go. *)
Lemma rstrip_slashes_nonempty s c :
  In c s -> c <> 47%N -> rstrip_chars (lit "/") s <> [].
Proof.
  intros Hin Hc Hnil.
  destruct (rstrip_slashes s) as (n & Hs & _).
  rewrite Hnil in Hs. cbn [app] in Hs. rewrite Hs in Hin.
  by apply repeat_spec in Hin.
Qed.

Lemma normalize_no_trailing_slash e :
  endswith (normalize_endpoint e) (lit "/") = false.
Proof.
  unfold normalize_endpoint.
  destruct (endswith (if negb (startswith e (lit "https://")) then _ else e)
              (lit "/")) eqn:E; [|done].
  by destruct (rstrip_slashes
                 (if negb (startswith e (lit "https://"))
                  then lit "https://" ++ e else e)) as (n & _ & Hend).
Qed.

(** The endpoint with an [https://] in front, whether it was there or
    was added. *)
Lemma prefixed_endpoint e :
  (if negb (startswith e (lit "https://")) then lit "https://" ++ e else e)
  = lit "https://"
      ++ (if startswith e (lit "https://") then drop 8 e else e).
Proof.
  destruct (startswith e (lit "https://")) eqn:E; [|done].
  apply startswith_prefix in E as [t ->]. reflexivity.
Qed.

Lemma normalize_endpoint_rstrip e :
  normalize_endpoint e
  = rstrip_chars (lit "/")
      (lit "https://"
         ++ (if startswith e (lit "https://") then drop 8 e else e)).
Proof.
  unfold normalize_endpoint. rewrite prefixed_endpoint.
  destruct (endswith _ (lit "/")) eqn:E; [done|].
  destruct (rstrip_slashes
              (lit "https://"
                 ++ (if startswith e (lit "https://") then drop 8 e else e)))
    as ([|n] & Hs & Hend).
  - cbn [repeat] in Hs. by rewrite app_nil_r in Hs.
  - exfalso. rewrite Hs in E.
    cbn [repeat] in E. rewrite repeat_cons, app_assoc in E.
    change (lit "/") with [47%N] in E at 2.
    by rewrite endswith_app in E.
Qed.

(** X17: for an endpoint that holds a character other than the slash
    behind its optional [https://], the normalised value starts with
    [https://], keeps everything up to the trailing slashes, and is left
    as it is when normalised again. *)
Theorem normalize_endpoint_stable (e : pystr) (c : N) :
  let host := if startswith e (lit "https://") then drop 8 e else e in
  In c host -> c <> 47%N ->
  normalize_endpoint e = lit "https://" ++ rstrip_chars (lit "/") host
  /\ startswith (normalize_endpoint e) (lit "https://") = true
  /\ normalize_endpoint (normalize_endpoint e) = normalize_endpoint e.
Proof.
  intros host Hin Hc.
  assert (Hnorm : normalize_endpoint e
                  = lit "https://" ++ rstrip_chars (lit "/") host).
  { rewrite normalize_endpoint_rstrip. apply rstrip_chars_app.
    by apply (rstrip_slashes_nonempty host c). }
  assert (Hstart : startswith (normalize_endpoint e) (lit "https://") = true)
    by (rewrite Hnorm; apply startswith_app).
  repeat split; [done..|].
  unfold normalize_endpoint at 1. rewrite Hstart. cbn [negb].
  by rewrite normalize_no_trailing_slash.
Qed.

Lemma normalize_endpoint_stable_witness :
  normalize_endpoint (lit "host.example//")
  = lit "https://" ++ rstrip_chars (lit "/") (lit "host.example//")
  /\ startswith (normalize_endpoint (lit "host.example//")) (lit "https://")
     = true
  /\ normalize_endpoint (normalize_endpoint (lit "host.example//"))
     = normalize_endpoint (lit "host.example//").
Proof.
  apply (normalize_endpoint_stable (lit "host.example//") 104%N).
  - vm_compute. tauto.
  - discriminate.
Defined.

(** ** More on the keyword scan *)

Lemma keywords_ascii keyword :
  In keyword critical_keywords -> Forall (fun c => (c < 128)%N) keyword.
Proof.
  unfold critical_keywords. cbn [In].
  intros [<-|[<-|[<-|[<-|[<-|[]]]]]]; by repeat constructor.
Qed.

(** X18: each of the five keywords is found whatever the case of its
    ASCII letters in the content, and whatever stands around it. *)
Theorem any_keyword_ignores_case
    (tbl : pystr -> N -> pystr -> pystr) (a k b keyword : pystr) :
  In keyword critical_keywords ->
  map ascii_lower k = keyword ->
  any_keyword (lower tbl (a ++ k ++ b)) = true.
Proof.
  intros Hin Hk. unfold any_keyword. apply existsb_exists.
  exists keyword. split; [done|].
  apply lower_contains_keyword; [done|by apply keywords_ascii].
Qed.

Lemma any_keyword_ignores_case_witness :
  any_keyword
    (lower (fun _ c _ => [c])
       (lit "Two buckets are " ++ lit "ExPoSeD" ++ lit " to the internet."))
  = true.
Proof.
  apply (any_keyword_ignores_case (fun _ c _ => [c])
           (lit "Two buckets are ") (lit "ExPoSeD") (lit " to the internet.")
           (lit "exposed")).
  - unfold critical_keywords. cbn [In]. tauto.
  - reflexivity.
Defined.

(** ** What [main] returns and does, in every world *)

Lemma returns_only_ret {A} (P : A -> Prop) a : P a -> returns_only P (ret a).
Proof. intros H w a' [= <-]. exact H. Qed.

Lemma returns_only_bind {A B} (P : B -> Prop) (m : M A) (k : A -> M B) :
  (forall a, returns_only P (k a)) -> returns_only P (bind m k).
Proof.
  intros Hk w b. unfold bind.
  destruct (m w) as [t [a|e]]; [|discriminate].
  rewrite snd_after. apply Hk.
Qed.

Lemma returns_only_if {A} (P : A -> Prop) (c : bool) (m1 m2 : M A) :
  returns_only P m1 -> returns_only P m2 ->
  returns_only P (if c then m1 else m2).
Proof. by destruct c. Qed.

(** X19: whenever [main] returns, it returns 0 or 1. *)
Theorem main_returns_0_or_1 (w : World) (code : Z) :
  outcome_of main w = Returned code -> code = 0 \/ code = 1.
Proof.
  revert w code.
  change (returns_only (fun code => code = 0 \/ code = 1) main).
  unfold main.
  repeat first
    [ apply returns_only_ret; tauto
    | apply returns_only_if
    | apply returns_only_bind; intros ? ].
Qed.

Lemma main_returns_0_or_1_witness :
  outcome_of main quiet_world = Returned 1 /\ ((1 : Z) = 0 \/ (1 : Z) = 1).
Proof.
  assert (H : outcome_of main quiet_world = Returned 1) by reflexivity.
  split; [exact H|exact (main_returns_0_or_1 quiet_world 1 H)].
Defined.

Lemma emits_only_requests_post (P : event -> Prop) req :
  P (EvPost req) -> emits_only P (requests_post req).
Proof.
  intros H. unfold requests_post.
  apply emits_only_bind; [by apply emits_only_emit|intros _].
  apply emits_only_bind; [apply emits_only_ask|intros w].
  destruct (http_post w req); [apply emits_only_ret|apply emits_only_raise].
Qed.

Lemma emits_only_response_json (P : event -> Prop) r :
  emits_only P (response_json r).
Proof.
  unfold response_json.
  destruct (json_body r) as [v|[|]];
    [apply emits_only_ret|apply emits_only_raise..].
Qed.

Lemma emits_only_analyze (P : event -> Prop)
    plan_text api_key endpoint deployment_name api_version :
  P (EvPost (build_request plan_text api_key)) ->
  (forall line, P (EvPrint line)) ->
  emits_only P (analyze_plan_with_azure_openai
                  plan_text api_key endpoint deployment_name api_version).
Proof.
  intros Hpost Hprint. unfold analyze_plan_with_azure_openai.
  apply emits_only_try; [|intros ex].
  - apply emits_only_bind; [by apply emits_only_requests_post|intros r].
    apply emits_only_bind; [|intros _; apply emits_only_response_json].
    unfold raise_for_status. emits_only_steps.
  - apply emits_only_bind; [apply emits_only_ask|intros w].
    apply emits_only_bind; [by apply emits_only_print|intros _].
    apply emits_only_bind; [|intros _; apply emits_only_ret].
    destruct ex as [| | | | |kind [r|]| | | |]; emits_only_steps; apply Hprint.
Qed.

(** X20: in every world, whatever the environment, the commands and the
    service do, [main] runs no command other than [terraform show] and
    [date], posts to no URL other than the literal one, and opens and
    writes no file other than [terraform-analysis.txt]. *)
Theorem main_does_only_the_expected (w : World) :
  Forall expected_event (trace_of main w).
Proof.
  revert w. change (emits_only expected_event main).
  unfold main.
  repeat first
    [ apply emits_only_analyze; [reflexivity|intros ?; exact I]
    | apply emits_only_ret | apply emits_only_raise | apply emits_only_lift
    | apply emits_only_ask
    | apply emits_only_print; exact I
    | apply emits_only_subprocess_run
    | apply emits_only_open_w | apply emits_only_write
    | apply emits_only_when | apply emits_only_if
    | apply emits_only_try; [|intros ?]
    | apply emits_only_bind; [|intros ?] ].
  all: first [by left | by right | reflexivity].
Qed.

(** ** The successful path *)

(** X21: a response whose status is outside 400 to 599, a 2xx or not, and
    whose body is JSON is no failure to the analysis: the decoded body is
    returned as it is and nothing is printed. *)
Theorem analyze_returns_decoded_body
    (w : World) (plan_text api_key endpoint deployment_name api_version : pystr)
    (r : Response) (v : pyval) :
  http_post w (build_request plan_text api_key) = Responded r ->
  ~ (400 <= status_code r < 600) ->
  json_body r = inl v ->
  outcome_of (analyze_plan_with_azure_openai
                plan_text api_key endpoint deployment_name api_version) w
  = Returned v
  /\ printed
       (trace_of (analyze_plan_with_azure_openai
                    plan_text api_key endpoint deployment_name api_version) w)
     = [].
Proof.
  intros Hpost Hstatus Hjson. unfold outcome_of, trace_of.
  by rewrite (analyze_body w plan_text api_key endpoint deployment_name
                api_version r v Hpost Hstatus Hjson).
Qed.

Lemma analyze_returns_decoded_body_witness :
  outcome_of (analyze_plan_with_azure_openai
                (lit "plan") (lit "secret") (lit "https://host")
                (lit "gpt-4") (lit "2024-02-15-preview")) finding_world
  = Returned (PDict (response_with finding))
  /\ printed
       (trace_of (analyze_plan_with_azure_openai
                    (lit "plan") (lit "secret") (lit "https://host")
                    (lit "gpt-4") (lit "2024-02-15-preview")) finding_world)
     = [].
Proof.
  apply (analyze_returns_decoded_body finding_world (lit "plan") (lit "secret")
           (lit "https://host") (lit "gpt-4") (lit "2024-02-15-preview")
           (mkResponse 200 (lit "{ }") (inl (PDict (response_with finding))))).
  - reflexivity.
  - cbn [status_code]. lia.
  - reflexivity.
Defined.

(** X22: the run in which everything succeeds and every line can be
    printed, event by event: the three opening lines, [terraform show],
    the truncation warning if the plan is long, the request, the report
    printed, [date], the file opened and written in two parts, the line
    announcing it, the critical-issue warning if a keyword is found, the
    closing line; exit code 0. *)
Theorem main_successful_run
    (w : World) (key e plan err : pystr) (r : Response)
    (d m mm : gmap pystr pyval) (rest : list pyval) (c : pystr)
    rc date_out date_err :
  environ w !! lit "AZURE_OPENAI_API_KEY" = Some key -> key <> [] ->
  environ w !! lit "AZURE_OPENAI_ENDPOINT" = Some e -> e <> [] ->
  run_process w terraform_show = Exited 0 plan err -> plan <> [] ->
  http_post w (build_request (truncate_plan plan) key) = Responded r ->
  ~ (400 <= status_code r < 600) ->
  json_body r = inl (PDict d) ->
  d !! lit "choices" = Some (PList (PDict m :: rest)) ->
  m !! lit "message" = Some (PDict mm) ->
  mm !! lit "content" = Some (PStr c) ->
  run_process w [lit "date"] = Exited rc date_out date_err ->
  open_error w default_filename = None ->
  (forall data, write_error w default_filename data = None) ->
  let formatted := formatted_head ++ c ++ formatted_tail in
  Forall (printable w) (opening_lines w e plan) ->
  printable w formatted ->
  printable w (saved_line default_filename) ->
  (any_keyword (lower (unicode_lower w) c) = true ->
   printable w msg_critical) ->
  printable w msg_complete ->
  main w
  = (opening w key e plan
       ++ [EvPrint formatted;
           EvRun [lit "date"];
           EvOpen default_filename;
           EvWrite default_filename (file_header date_out);
           EvWrite default_filename
             (fit_content (file_header date_out) (strip_formatting formatted));
           EvPrint (lit "Analysis saved to " ++ default_filename
                      ++ lit " (max 4000 characters)")]
       ++ (if any_keyword (lower (unicode_lower w) c)
           then [EvPrint msg_critical] else [])
       ++ [EvPrint msg_complete],
     Returned 0).
Proof.
  intros Hkey Hkey' He He' Hplan Hne Hpost Hstatus Hjson Hd Hm Hmm
    Hdate Hopen Hwrite formatted Hopening Hformatted Hsaved Hcritical
    Hcomplete.
  rewrite (main_reaches_report w key e plan err r (PDict d)) by done.
  pose proof (save_run w formatted default_filename rc date_out date_err
                Hdate Hopen Hwrite Hsaved) as Hsave.
  rewrite (report_content w d m mm rest c Hd Hm Hmm)
    by (try done; fold formatted; by rewrite Hsave).
  fold formatted. rewrite Hsave, run_print by done.
  unfold ret. rewrite !after_pair. cbn [fst app].
  by rewrite <- ?app_assoc.
Qed.

Lemma main_successful_run_witness :
  let w := finding_world in
  let formatted := formatted_head ++ finding ++ formatted_tail in
  main w
  = (opening w (lit "secret") (lit "example.openai.azure.com") date_line
       ++ [EvPrint formatted;
           EvRun [lit "date"];
           EvOpen default_filename;
           EvWrite default_filename (file_header date_line);
           EvWrite default_filename
             (fit_content (file_header date_line) (strip_formatting formatted));
           EvPrint (lit "Analysis saved to " ++ default_filename
                      ++ lit " (max 4000 characters)")]
       ++ (if any_keyword (lower (unicode_lower w) finding)
           then [EvPrint msg_critical] else [])
       ++ [EvPrint msg_complete],
     Returned 0).
Proof.
  apply (main_successful_run finding_world (lit "secret")
           (lit "example.openai.azure.com") date_line []
           (mkResponse 200 (lit "{ }") (inl (PDict (response_with finding))))
           (response_with finding)
           {[ lit "message" := PDict {[ lit "content" := PStr finding ]} ]}
           {[ lit "content" := PStr finding ]}
           [] finding 0 date_line []).
  - reflexivity.
  - discriminate.
  - reflexivity.
  - discriminate.
  - reflexivity.
  - discriminate.
  - reflexivity.
  - cbn [status_code]. lia.
  - reflexivity.
  - reflexivity.
  - reflexivity.
  - reflexivity.
  - reflexivity.
  - reflexivity.
  - reflexivity.
  - repeat constructor.
  - reflexivity.
  - reflexivity.
  - intros _. reflexivity.
  - reflexivity.
Defined.

(** ** Lines that cannot be printed *)

(** Splits a list of known lines at the one that cannot be printed. *)
Ltac split_lines H :=
  repeat match type of H with
         | _ :: _ = (?before ++ _ :: _) =>
             destruct before; cbn [app] in H;
             injection H as ? H; subst
         | [] = (?before ++ _ :: _) =>
             destruct before; discriminate H
         end.

(** X24: with the configuration set, the first of the three opening lines
    that standard output refuses ends [main] with the error of that
    [print]: the lines before it are printed, [terraform show] is not run
    and no request is sent. *)
Theorem main_raises_on_unprintable_greeting
    (w : World) (key e : pystr) (before rest : list pystr) (line : pystr)
    (ex : exn) :
  environ w !! lit "AZURE_OPENAI_API_KEY" = Some key -> key <> [] ->
  environ w !! lit "AZURE_OPENAI_ENDPOINT" = Some e -> e <> [] ->
  [msg_analyzing;
   lit "Using endpoint: " ++ normalize_endpoint e;
   lit "Using deployment: " ++ deployment_of w]
  = before ++ line :: rest ->
  Forall (printable w) before ->
  print_error w line = Some ex ->
  main w = (map EvPrint before, Raised ex).
Proof.
  intros Hkey Hkey' He He' Hsplit Hbefore Hline.
  rewrite (main_greets w key e) by done.
  split_lines Hsplit;
    rewrite ?run_print by printing;
    rewrite (run_print_failed _ _ _ _ Hline);
    by rewrite ?after_pair.
Qed.

Lemma main_raises_on_unprintable_greeting_witness :
  main ascii_only_world = ([], Raised UnicodeEncodeError).
Proof.
  apply (main_raises_on_unprintable_greeting ascii_only_world (lit "secret")
           (lit "example.openai.azure.com") []
           [lit "Using endpoint: "
              ++ normalize_endpoint (lit "example.openai.azure.com");
            lit "Using deployment: " ++ deployment_of ascii_only_world]
           msg_analyzing).
  - reflexivity.
  - discriminate.
  - reflexivity.
  - discriminate.
  - reflexivity.
  - constructor.
  - reflexivity.
Defined.

(** X25: the lines that report a failed request are printed in the
    handler, outside any [try]: the first of them that standard output
    refuses ends the analysis with the error of that [print], in place of
    the empty mapping. *)
Theorem analyze_raises_on_unprintable_error
    (w : World) (plan_text api_key endpoint deployment_name api_version : pystr)
    (failure : exn) (before rest : list pystr) (line : pystr) (ex : exn) :
  request_fails w (build_request plan_text api_key) failure ->
  request_error_lines w failure = before ++ line :: rest ->
  Forall (printable w) before ->
  print_error w line = Some ex ->
  analyze_plan_with_azure_openai
    plan_text api_key endpoint deployment_name api_version w
  = (EvPost (build_request plan_text api_key) :: map EvPrint before,
     Raised ex).
Proof.
  intros Hfail Hsplit Hbefore Hline.
  unfold analyze_plan_with_azure_openai.
  destruct (request_raises w plan_text api_key failure Hfail)
    as [(kind & response & ->) Hraised].
  rewrite (try_except_caught _ _ _ _ _ _ Hraised eq_refl).
  rewrite run_ask. unfold request_error_lines in Hsplit.
  destruct response as [r|];
    split_lines Hsplit;
    rewrite ?run_print by printing;
    rewrite ?run_assoc, ?run_print by printing;
    first [ rewrite (run_print_failed _ _ _ _ Hline)
          | rewrite run_assoc, (run_print_failed _ _ _ _ Hline)
          | rewrite (run_raised _ _ w
                       [EvPrint (lit "Response status: "
                                   ++ str_of_int (status_code r))] ex)
              by (by rewrite run_print by printing;
                  unfold print; rewrite Hline) ];
    by rewrite ?after_pair.
Qed.

Lemma analyze_raises_on_unprintable_error_witness :
  analyze_plan_with_azure_openai
    (lit "plan") (lit "secret") (lit "https://host") (lit "gpt-4")
    (lit "2024-02-15-preview") refusing_world
  = ([EvPost (build_request (lit "plan") (lit "secret"));
      EvPrint (lit "Error calling Azure OpenAI API: error");
      EvPrint (lit "Response status: 403")],
     Raised UnicodeEncodeError).
Proof.
  apply (analyze_raises_on_unprintable_error refusing_world
           (lit "plan") (lit "secret") (lit "https://host") (lit "gpt-4")
           (lit "2024-02-15-preview")
           (RequestException HTTPError (Some refusing_response))
           [lit "Error calling Azure OpenAI API: error";
            lit "Response status: 403"]
           []
           (lit "Response text: " ++ text refusing_response)).
  - right. eexists. split; [reflexivity|]. cbn [status_code refusing_response].
    split; [lia|done].
  - reflexivity.
  - repeat constructor.
  - reflexivity.
Defined.

(** X26: the line announcing the saved file is printed inside the [try]:
    when standard output refuses it, after the file is written, the
    handler reports the error of that [print] as an error of saving,
    although the file holds the whole report; nothing is raised. *)
Theorem save_reports_unprintable_confirmation
    (w : World) (analysis filename : pystr) rc date_out date_err (ex : exn) :
  run_process w [lit "date"] = Exited rc date_out date_err ->
  open_error w filename = None ->
  (forall data, write_error w filename data = None) ->
  print_error w
    (lit "Analysis saved to " ++ filename ++ lit " (max 4000 characters)")
  = Some ex ->
  printable w (lit "Error saving analysis to file: " ++ str_of_exn w ex) ->
  outcome_of (save_analysis_to_file analysis filename) w = Returned tt
  /\ printed (trace_of (save_analysis_to_file analysis filename) w)
     = [lit "Error saving analysis to file: " ++ str_of_exn w ex]
  /\ file_after (trace_of (save_analysis_to_file analysis filename) w) filename
     = Some (file_header date_out
               ++ fit_content (file_header date_out)
                    (strip_formatting analysis)).
Proof.
  intros Hdate Hopen Hwrite Hline Herror.
  assert (Hrun : save_analysis_to_file analysis filename w
            = ([EvRun [lit "date"];
                EvOpen filename;
                EvWrite filename (file_header date_out);
                EvWrite filename
                  (fit_content (file_header date_out)
                     (strip_formatting analysis));
                EvPrint (lit "Error saving analysis to file: "
                           ++ str_of_exn w ex)],
               Returned tt)).
  { unfold save_analysis_to_file.
    rewrite (try_except_caught _ _ _ w
               [EvRun [lit "date"];
                EvOpen filename;
                EvWrite filename (file_header date_out);
                EvWrite filename
                  (fit_content (file_header date_out)
                     (strip_formatting analysis))] ex).
    - rewrite run_ask. unfold print. unfold printable in Herror.
      rewrite Herror, after_pair. reflexivity.
    - rewrite (run_returned _ _ _ _ _
                 (subprocess_run_exited _ _ false _ _ _ Hdate)).
      cbn [andb cp_stdout]. unfold open_w, write.
      rewrite run_assoc, run_ask, Hopen, run_emit.
      rewrite run_assoc, run_ask, Hwrite, run_emit.
      rewrite run_assoc, run_ask, Hwrite, run_emit.
      unfold print. rewrite Hline, !after_pair. reflexivity.
    - done. }
  unfold outcome_of, trace_of. rewrite Hrun. cbn [fst snd].
  repeat split. unfold file_after. cbn [fold_left file_step].
  rewrite !bool_decide_eq_true_2 by done. reflexivity.
Qed.

Lemma save_reports_unprintable_confirmation_witness :
  outcome_of (save_analysis_to_file (lit "All good.") accented_filename)
    ascii_only_world
  = Returned tt
  /\ printed (trace_of (save_analysis_to_file (lit "All good.")
                         accented_filename) ascii_only_world)
     = [lit "Error saving analysis to file: error"]
  /\ file_after
       (trace_of (save_analysis_to_file (lit "All good.") accented_filename)
          ascii_only_world)
       accented_filename
     = Some (file_header date_line
               ++ fit_content (file_header date_line)
                    (strip_formatting (lit "All good."))).
Proof.
  apply (save_reports_unprintable_confirmation ascii_only_world
           (lit "All good.") accented_filename 0 date_line []
           UnicodeEncodeError); reflexivity.
Defined.

(** ** The header *)

Lemma length_lstrip s : (length (lstrip s) <= length s)%nat.
Proof.
  induction s as [|c s IH]; [done|].
  cbn [lstrip]. destruct (isspace c); cbn [length]; lia.
Qed.

(** X23: the header is 38 characters longer than what is left of the
    output of [date] once the white space at both ends is removed, which
    is never more than [date] printed; so an output of at most 3912
    characters gives a header of at most 3950. *)
Theorem file_header_length (date_out : pystr) :
  len (file_header date_out) = 38 + len (strip date_out)
  /\ len (strip date_out) <= len date_out.
Proof.
  split.
  - unfold file_header. rewrite !len_app.
    change (len (lit "Terraform Plan Analysis")) with 23.
    change (len (lit "Generated: ")) with 11.
    change (len nl) with 1. lia.
  - unfold len, strip. rewrite length_rev.
    pose proof (length_lstrip (rev (lstrip date_out))) as H1.
    pose proof (length_lstrip date_out) as H2.
    rewrite length_rev in H1. lia.
Qed.
